(** * Session state model of the video editor client

    A shallow embedding of the React components of the client
    (App, VideoUploader, VideoMerger, VideoPreview, TrimControls) and the
    properties of their event handlers.

    Conventions of the embedding.
    - A JavaScript [number] holding a time in seconds is an exact rational
      ([Q]); [Math.min]/[Math.max] are [Qmin]/[Qmax]; [a >= b] is
      [Qle_bool b a].  Rounding of IEEE doubles and NaN are outside the model:
      the properties below are about order, bounds and which value is
      stored, not about the exact value of a sum such as [v + 1].
    - A [useState] cell is a record field; a handler is a computation in a
      small state monad over the component's own state, the state of the
      parent that owns the callbacks passed as props, and the list of HTTP
      requests sent so far.
    - [axios.post] consults a [server] function for its outcome: it either
      resolves with the response body or rejects (the [catch] branch).
    - Array indices handed to handlers are [Z], as [Array.prototype.splice]
      gives a meaning to negative and oversized ones. *)

From Stdlib Require Import List String Ascii ZArith QArith Qminmax Lia Bool DecimalString Permutation.
Import ListNotations.

Local Open Scope string_scope.
Local Open Scope Z_scope.

(** ** Shared data *)

(** The fields of a browser [File] that the client reads. *)
Record File := mkFile {
  name : string;
  size : Z;
  type : string
}.

(** [interface TrimData]. *)
Record TrimData := mkTrimData {
  startTime : Q;
  endTime : Q;
  duration : Q
}.

(** [interface ConversionResult]. *)
Record ConversionResult := mkResult {
  fileId : string;
  downloadUrl : string
}.

(** A value appended to a [FormData]: a file part, a literal string, or the
    string [x.toString()] of a number [x], kept symbolic. *)
Inductive FormValue :=
| FilePart (f : File)
| TextPart (s : string)
| NumberPart (x : Q).

Definition FormData := list (string * FormValue).

Record Request := mkRequest {
  url : string;
  body : FormData
}.

(** [response.data] of a resolved call: the truthiness of its [success]
    field and its [file_id]. *)
Record ResponseData := mkData {
  success : bool;
  file_id : string
}.

(** Outcome of [await axios.post(...)].  A rejection carries
    [err.response?.data?.error], [None] when any link of the chain is
    undefined. *)
Inductive AxiosOutcome :=
| Resolved (data : ResponseData)
| Rejected (payload : option string).

(** [payload || fallback]: the empty string is falsy. *)
Definition or_fallback (payload : option string) (fallback : string) : string :=
  match payload with
  | Some s => if String.eqb s "" then fallback else s
  | None => fallback
  end.

Definition allowedTypes : list string :=
  ["video/mp4"; "video/avi"; "video/mov"; "video/quicktime"; "video/x-msvideo"; "video/webm"].

(** [allowedTypes.includes(t)]. *)
Definition includes (l : list string) (t : string) : bool :=
  existsb (String.eqb t) l.

(** [100 * 1024 * 1024]. *)
Definition sizeLimit : Z := 100 * 1024 * 1024.

(** Decimal rendering of a non-negative integer, as in a template literal. *)
Definition decimal (n : nat) : string :=
  NilEmpty.string_of_uint (Nat.to_uint n).

(** ** Handler monad *)

Section Monad.
Context {P L : Type}.

(** What a handler of a component can touch: the parent's state (through
    callbacks), its own state, and the network. *)
Record Env := mkEnv {
  parent : P;
  local : L;
  wire : list Request
}.

Definition M (A : Type) : Type := Env -> A * Env.

Definition ret {A} (a : A) : M A := fun e => (a, e).

Definition bind {A B} (c : M A) (k : A -> M B) : M B :=
  fun e => let (a, e') := c e in k a e'.

(** A state setter of the component. *)
Definition setState (f : L -> L) : M unit :=
  fun e => (tt, mkEnv (parent e) (f (local e)) (wire e)).

(** A callback prop, run in the parent. *)
Definition call (cb : P -> P) : M unit :=
  fun e => (tt, mkEnv (cb (parent e)) (local e) (wire e)).

(** An optional callback prop: [if (cb) cb(...)]. *)
Definition callIfPresent (cb : option (P -> P)) : M unit :=
  match cb with
  | Some f => call f
  | None => ret tt
  end.

(** [await axios.post(url, formData, ...)]. *)
Definition axios_post (server : Request -> AxiosOutcome)
    (u : string) (fd : FormData) : M AxiosOutcome :=
  fun e =>
    let rq := mkRequest u fd in
    (server rq, mkEnv (parent e) (local e) (wire e ++ [rq])%list).

Definition exec {A} (c : M A) (e : Env) : Env := snd (c e).
End Monad.

Arguments Env : clear implicits.
Arguments M : clear implicits.

Declare Scope handler_scope.
Delimit Scope handler_scope with handler.
Notation "x <- c ;; k" := (bind c (fun x => k))
  (at level 61, c at next level, right associativity) : handler_scope.
Notation "c ;; k" := (bind c (fun _ => k))
  (at level 61, right associativity) : handler_scope.
Local Open Scope handler_scope.

(** ** App (top-level session) *)

Module App.
Inductive Mode := single | merge.

Record State := mkState {
  selectedFile : option File;
  convertedVideo : option ConversionResult;
  isConverting : bool;
  trimData : option TrimData;
  currentMode : Mode;
  isMerging : bool
}.

(** The [useState] initial values. *)
Definition init : State := mkState None None false None single false.

Definition setSelectedFile v (a : State) :=
  mkState v (convertedVideo a) (isConverting a) (trimData a) (currentMode a) (isMerging a).
Definition setConvertedVideo v (a : State) :=
  mkState (selectedFile a) v (isConverting a) (trimData a) (currentMode a) (isMerging a).
Definition setIsConverting v (a : State) :=
  mkState (selectedFile a) (convertedVideo a) v (trimData a) (currentMode a) (isMerging a).
Definition setTrimData v (a : State) :=
  mkState (selectedFile a) (convertedVideo a) (isConverting a) v (currentMode a) (isMerging a).
Definition setCurrentMode v (a : State) :=
  mkState (selectedFile a) (convertedVideo a) (isConverting a) (trimData a) v (isMerging a).
Definition setIsMerging v (a : State) :=
  mkState (selectedFile a) (convertedVideo a) (isConverting a) (trimData a) (currentMode a) v.

Definition handleFileSelected (file : File) (a : State) : State :=
  setTrimData None (setConvertedVideo None (setSelectedFile (Some file) a)).

Definition handleTrimChange (startTime endTime duration : Q) (a : State) : State :=
  setTrimData (Some (mkTrimData startTime endTime duration)) a.

Definition handleConversionComplete (result : ConversionResult) (a : State) : State :=
  setIsConverting false (setConvertedVideo (Some result) a).

Definition handleConversionStart (a : State) : State :=
  setConvertedVideo None (setIsConverting true a).

Definition handleMergeComplete (result : ConversionResult) (a : State) : State :=
  setIsMerging false (setConvertedVideo (Some result) a).

Definition handleMergeStart (a : State) : State :=
  setConvertedVideo None (setIsMerging true a).
End App.

(** ** VideoUploader *)

Module VideoUploader.
Record State := mkState {
  dragActive : bool;
  error : string
}.

Definition init : State := mkState false "".

Section Component.
Context {P : Type}.

Record Props := mkProps {
  onFileSelected : File -> P -> P;
  onConversionComplete : ConversionResult -> P -> P;
  onConversionStart : P -> P;
  isConverting : bool;
  selectedFile : option File;
  trimData : option TrimData
}.

Variable props : Props.
Variable server : Request -> AxiosOutcome.

Definition setDragActive (v : bool) : M P State unit :=
  setState (fun s => mkState v (error s)).

Definition setError (msg : string) : M P State unit :=
  setState (fun s => mkState (dragActive s) msg).

Definition handleFileSelect (file : File) : M P State unit :=
  if negb (includes allowedTypes (type file)) then
    setError "Please select a valid video file (MP4, AVI, MOV, WebM)"
  else if size file >? sizeLimit then
    setError "File size must be less than 100MB"
  else
    call (onFileSelected props file) ;;
    setError "".

(** [e.dataTransfer.files[0]] is the head of the dropped file list. *)
Definition handleDrop (files : list File) : M P State unit :=
  setDragActive false ;;
  match files with
  | file :: _ => handleFileSelect file
  | [] => ret tt
  end.

(** The form built by [handleConvert]: the clip and, [if (trimData)],
    the two bounds. *)
Definition convertForm (file : File) : FormData :=
  ([("video", FilePart file)] ++
   match trimData props with
   | Some t => [("startTime", NumberPart (startTime t));
                ("endTime", NumberPart (endTime t))]
   | None => []
   end)%list.

Definition downloadUrlOf (id : string) : string :=
  "http://localhost:5000/download/" ++ id.

(** What [handleConvert] does once the awaited call has settled: the
    rest of the [try] block, or the [catch] block. *)
Definition handleConvert_settled (response : AxiosOutcome) : M P State unit :=
  match response with
  | Resolved data =>
      if success data then
        call (onConversionComplete props
                (mkResult (file_id data) (downloadUrlOf (file_id data))))
      else ret tt
  | Rejected payload =>
      setError (or_fallback payload "Conversion failed. Please try again.") ;;
      call (onConversionStart props)
  end.

Definition handleConvert : M P State unit :=
  match selectedFile props with
  | None => ret tt
  | Some file =>
      call (onConversionStart props) ;;
      setError "" ;;
      response <- axios_post server "http://localhost:5000/upload" (convertForm file) ;;
      handleConvert_settled response
  end.

Definition trimForm (file : File) (t : TrimData) : FormData :=
  [("video", FilePart file);
   ("startTime", NumberPart (startTime t));
   ("endTime", NumberPart (endTime t))].

Definition handleTrimOnly_settled (response : AxiosOutcome) : M P State unit :=
  match response with
  | Resolved data =>
      if success data then
        call (onConversionComplete props
                (mkResult (file_id data) (downloadUrlOf (file_id data))))
      else ret tt
  | Rejected payload =>
      setError (or_fallback payload "Trimming failed. Please try again.") ;;
      call (onConversionStart props)
  end.

Definition handleTrimOnly : M P State unit :=
  match selectedFile props, trimData props with
  | Some file, Some t =>
      call (onConversionStart props) ;;
      setError "" ;;
      response <- axios_post server "http://localhost:5000/trim" (trimForm file t) ;;
      handleTrimOnly_settled response
  | _, _ => ret tt
  end.

(** [handleDrag]: [e.type] selects the branch. *)
Definition handleDrag (eventType : string) : M P State unit :=
  if String.eqb eventType "dragenter" || String.eqb eventType "dragover" then
    setDragActive true
  else if String.eqb eventType "dragleave" then
    setDragActive false
  else ret tt.

(** [e.target.files && e.target.files[0]]. *)
Definition handleFileInputChange (files : option (list File)) : M P State unit :=
  match files with
  | Some (file :: _) => handleFileSelect file
  | _ => ret tt
  end.

(** The part of [handleConvert] that runs before the [await] suspends it:
    the two setters and the call itself, whose outcome arrives later. *)
Definition handleConvert_dispatch (file : File) : M P State AxiosOutcome :=
  call (onConversionStart props) ;;
  setError "" ;;
  axios_post server "http://localhost:5000/upload" (convertForm file).

(** The same for [handleTrimOnly]. *)
Definition handleTrimOnly_dispatch (file : File) (t : TrimData)
  : M P State AxiosOutcome :=
  call (onConversionStart props) ;;
  setError "" ;;
  axios_post server "http://localhost:5000/trim" (trimForm file t).
End Component.

Arguments Props : clear implicits.
End VideoUploader.

(** ** VideoMerger *)

(** [Array.prototype.splice(start, deleteCount, ...items)]: the removed
    elements and the array afterwards. *)
Definition splice {A} (l : list A) (start deleteCount : Z) (items : list A)
  : list A * list A :=
  let len := Z.of_nat (List.length l) in
  let actualStart :=
    if start <? 0 then Z.max (len + start) 0 else Z.min start len in
  let actualDeleteCount := Z.min (Z.max deleteCount 0) (len - actualStart) in
  let a := Z.to_nat actualStart in
  let d := Z.to_nat actualDeleteCount in
  (firstn d (skipn a l), (firstn a l ++ items ++ skipn (a + d) l)%list).

(** [arr.filter((_, i) => keep(i))], the index counted from [i]. *)
Fixpoint filterIndex {A} (keep : Z -> bool) (i : Z) (l : list A) : list A :=
  match l with
  | [] => []
  | x :: rest =>
      if keep i then x :: filterIndex keep (i + 1) rest
      else filterIndex keep (i + 1) rest
  end.

(** [arr.map((x, i) => f(i, x))], the index counted from [i]. *)
Fixpoint mapIndex {A B} (f : nat -> A -> B) (i : nat) (l : list A) : list B :=
  match l with
  | [] => []
  | x :: rest => f i x :: mapIndex f (S i) rest
  end.

Module VideoMerger.
(** An array slot: a file, or [undefined] (which [moveVideo] can insert
    when [fromIndex] addresses nothing). *)
Definition Cell := option File.

Record State := mkState {
  videos : list Cell;
  dragActive : bool;
  error : string
}.

Definition init : State := mkState [] false "".

Section Component.
Context {P : Type}.

Record Props := mkProps {
  onMergeComplete : ConversionResult -> P -> P;
  onMergeStart : P -> P;
  isMerging : bool
}.

Variable props : Props.
Variable server : Request -> AxiosOutcome.

Definition getState : M P State State := fun e => (local e, e).

Definition setVideos (f : list Cell -> list Cell) : M P State unit :=
  setState (fun s => mkState (f (videos s)) (dragActive s) (error s)).

Definition setDragActive (v : bool) : M P State unit :=
  setState (fun s => mkState (videos s) v (error s)).

Definition setError (msg : string) : M P State unit :=
  setState (fun s => mkState (videos s) (dragActive s) msg).

(** The [forEach] of [handleFileSelect], threading the local array
    [validFiles]. *)
Fixpoint validate (files : list File) (validFiles : list File)
  : M P State (list File) :=
  match files with
  | [] => ret validFiles
  | file :: rest =>
      if negb (includes allowedTypes (type file)) then
        setError (name file ++ " is not a valid video file") ;;
        validate rest validFiles
      else if size file >? sizeLimit then
        setError (name file ++ " is too large (max 100MB)") ;;
        validate rest validFiles
      else
        validate rest (validFiles ++ [file])%list
  end.

Definition handleFileSelect (files : list File) : M P State unit :=
  validFiles <- validate files [] ;;
  if (0 <? List.length validFiles)%nat then
    setVideos (fun prev => (prev ++ map Some validFiles)%list) ;;
    setError ""
  else ret tt.

Definition handleDrop (files : option (list File)) : M P State unit :=
  setDragActive false ;;
  match files with
  | Some fl => handleFileSelect fl
  | None => ret tt
  end.

Definition removeVideo (index : Z) : M P State unit :=
  setVideos (fun prev => filterIndex (fun i => negb (i =? index)) 0 prev).

Definition moveVideo (fromIndex toIndex : Z) : M P State unit :=
  s <- getState ;;
  let newVideos := videos s in
  let (removed, newVideos1) := splice newVideos fromIndex 1 [] in
  let movedVideo : Cell := hd None removed in
  let (_, newVideos2) := splice newVideos1 toIndex 0 [movedVideo] in
  setVideos (fun _ => newVideos2).

Definition mergePart (index : nat) (video : Cell) : string * FormValue :=
  ("video" ++ decimal index,
   match video with
   | Some f => FilePart f
   | None => TextPart "undefined"
   end).

Definition mergeForm (vs : list Cell) : FormData :=
  (mapIndex mergePart 0 vs ++ [("videoCount", TextPart (decimal (List.length vs)))])%list.

Definition handleMerge_settled (response : AxiosOutcome) : M P State unit :=
  match response with
  | Resolved data =>
      if success data then
        call (onMergeComplete props
                (mkResult (file_id data)
                   ("http://localhost:5000/download/" ++ file_id data)))
      else ret tt
  | Rejected payload =>
      setError (or_fallback payload "Merge failed. Please try again.") ;;
      call (onMergeStart props)
  end.

Definition handleMerge : M P State unit :=
  s <- getState ;;
  if (List.length (videos s) <? 2)%nat then
    setError "Please select at least 2 videos to merge"
  else
    call (onMergeStart props) ;;
    setError "" ;;
    response <- axios_post server "http://localhost:5000/merge" (mergeForm (videos s)) ;;
    handleMerge_settled response.

(** [handleDrag]: [e.type] selects the branch. *)
Definition handleDrag (eventType : string) : M P State unit :=
  if String.eqb eventType "dragenter" || String.eqb eventType "dragover" then
    setDragActive true
  else if String.eqb eventType "dragleave" then
    setDragActive false
  else ret tt.

(** [if (e.target.files) handleFileSelect(e.target.files)]. *)
Definition handleFileInputChange (files : option (list File)) : M P State unit :=
  match files with
  | Some fl => handleFileSelect fl
  | None => ret tt
  end.

(** The part of [handleMerge] that runs before the [await] suspends it, for
    a list [vs] that passed the length check. *)
Definition handleMerge_dispatch (vs : list Cell) : M P State AxiosOutcome :=
  call (onMergeStart props) ;;
  setError "" ;;
  axios_post server "http://localhost:5000/merge" (mergeForm vs).
End Component.

Arguments Props : clear implicits.
End VideoMerger.

(** ** VideoPreview *)

Module VideoPreview.
(** The properties of the [<video>] element behind [videoRef] that the
    handlers read. *)
Record HTMLVideoElement := mkVideo {
  video_duration : Q;
  video_currentTime : Q
}.

Record State := mkState {
  videoUrl : string;
  duration : Q;
  startTime : Q;
  endTime : Q;
  currentTime : Q
}.

Definition init : State := mkState "" 0 0 0 0.

Section Component.
Context {P : Type}.

Record Props := mkProps {
  file : File;
  onTrimChange : option (Q -> Q -> Q -> P -> P);
  showTrimControls : bool
}.

Variable props : Props.

Definition getState : M P State State := fun e => (local e, e).

Definition setDuration (v : Q) : M P State unit :=
  setState (fun s => mkState (videoUrl s) v (startTime s) (endTime s) (currentTime s)).

Definition setStartTime (v : Q) : M P State unit :=
  setState (fun s => mkState (videoUrl s) (duration s) v (endTime s) (currentTime s)).

Definition setEndTime (v : Q) : M P State unit :=
  setState (fun s => mkState (videoUrl s) (duration s) (startTime s) v (currentTime s)).

Definition setCurrentTime (v : Q) : M P State unit :=
  setState (fun s => mkState (videoUrl s) (duration s) (startTime s) (endTime s) v).

(** [if (onTrimChange) onTrimChange(s, e, d)]. *)
Definition notify (s e d : Q) : M P State unit :=
  callIfPresent (option_map (fun cb => cb s e d) (onTrimChange props)).

Definition handleLoadedMetadata (videoRef_current : option HTMLVideoElement)
  : M P State unit :=
  match videoRef_current with
  | Some video =>
      let videoDuration := video_duration video in
      setDuration videoDuration ;;
      setEndTime videoDuration ;;
      notify 0 videoDuration videoDuration
  | None => ret tt
  end.

Definition handleTimeUpdate (videoRef_current : option HTMLVideoElement)
  : M P State unit :=
  match videoRef_current with
  | Some video => setCurrentTime (video_currentTime video)
  | None => ret tt
  end.

Definition handleStartTimeChange (value : Q) : M P State unit :=
  s <- getState ;;
  setStartTime value ;;
  if Qle_bool (endTime s) value then
    let newEndTime := Qmin (value + 1) (duration s) in
    setEndTime newEndTime ;;
    notify value newEndTime (duration s)
  else
    notify value (endTime s) (duration s).

Definition handleEndTimeChange (value : Q) : M P State unit :=
  s <- getState ;;
  setEndTime value ;;
  if Qle_bool value (startTime s) then
    let newStartTime := Qmax (value - 1) 0 in
    setStartTime newStartTime ;;
    notify newStartTime value (duration s)
  else
    notify (startTime s) value (duration s).
End Component.

Arguments Props : clear implicits.
End VideoPreview.

(** ** TrimControls *)

Module TrimControls.
Section Component.
Context {P : Type}.

Record Props := mkProps {
  trimData : TrimData;
  onTrimChange : Q -> Q -> Q -> P -> P
}.

Variable props : Props.

(** The component keeps no state of its own. *)
Definition handleStartTimeChange (value : Q) : M P unit unit :=
  let newStartTime := value in
  if Qle_bool (endTime (trimData props)) newStartTime then
    let newEndTime := Qmin (newStartTime + 1) (duration (trimData props)) in
    call (onTrimChange props newStartTime newEndTime (duration (trimData props)))
  else
    call (onTrimChange props newStartTime (endTime (trimData props))
            (duration (trimData props))).

Definition handleEndTimeChange (value : Q) : M P unit unit :=
  let newEndTime := value in
  if Qle_bool newEndTime (startTime (trimData props)) then
    let newStartTime := Qmax (newEndTime - 1) 0 in
    call (onTrimChange props newStartTime newEndTime (duration (trimData props)))
  else
    call (onTrimChange props (startTime (trimData props)) newEndTime
            (duration (trimData props))).
End Component.

Arguments Props : clear implicits.
End TrimControls.

(** ** The props App passes to its children *)

Module Render.
Definition uploaderProps (a : App.State) : VideoUploader.Props App.State :=
  VideoUploader.mkProps
    App.handleFileSelected
    App.handleConversionComplete
    App.handleConversionStart
    (App.isConverting a)
    (App.selectedFile a)
    (App.trimData a).

(** [selectedFile && trimData && <TrimControls .../>]: the inner condition
    of the sidebar's single-mode branch; the mode test around it is in
    [sidebarTrimControls]. *)
Definition trimControlsProps (a : App.State)
  : option (TrimControls.Props App.State) :=
  match App.selectedFile a, App.trimData a with
  | Some _, Some t => Some (TrimControls.mkProps t App.handleTrimChange)
  | _, _ => None
  end.

Definition mergerProps (a : App.State) : VideoMerger.Props App.State :=
  VideoMerger.mkProps
    App.handleMergeComplete
    App.handleMergeStart
    (App.isMerging a).

(** The trim controls as the sidebar mounts them:
    [currentMode === 'single' ? (... selectedFile && trimData && ...) : ...]. *)
Definition sidebarTrimControls (a : App.State)
  : option (TrimControls.Props App.State) :=
  match App.currentMode a with
  | App.single => trimControlsProps a
  | App.merge => None
  end.

(** The preview is mounted when no result is shown, a file is selected
    and the mode is [single]. *)
Definition previewProps (a : App.State)
  : option (VideoPreview.Props App.State) :=
  match App.convertedVideo a, App.selectedFile a, App.currentMode a with
  | None, Some f, App.single =>
      Some (VideoPreview.mkProps f (Some App.handleTrimChange) false)
  | _, _, _ => None
  end.
End Render.

(** ** Vocabulary of the properties *)

Definition uploadUrl : string := "http://localhost:5000/upload".
Definition trimUrl : string := "http://localhost:5000/trim".
Definition mergeUrl : string := "http://localhost:5000/merge".

(** The request [handleConvert] sends for clip [f] from session [a]. *)
Definition convertRequest (a : App.State) (f : File) : Request :=
  mkRequest uploadUrl (VideoUploader.convertForm (Render.uploaderProps a) f).

(** The request [handleTrimOnly] sends for clip [f] and range [t]. *)
Definition trimRequest (f : File) (t : TrimData) : Request :=
  mkRequest trimUrl (VideoUploader.trimForm f t).

(** The request [handleMerge] sends for the list [vs]. *)
Definition mergeRequest (vs : list VideoMerger.Cell) : Request :=
  mkRequest mergeUrl (VideoMerger.mergeForm vs).

(** Whether a form has a field of the given name. *)
Definition hasField (key : string) (fd : FormData) : bool :=
  existsb (fun kv => String.eqb (fst kv) key) fd.

(** Whether a request carries the two trim bounds. *)
Definition carriesBounds (rq : Request) : bool :=
  hasField "startTime" (body rq) && hasField "endTime" (body rq).

(** A trim range strictly narrower than the full duration:
    [startTime > 0 || endTime < duration]. *)
Definition narrower (t : TrimData) : bool :=
  negb (Qle_bool (startTime t) 0) || negb (Qle_bool (duration t) (endTime t)).

(** The trim-window invariant of the data model. *)
Definition trimInvariant (s e d : Q) : Prop :=
  (0 <= s)%Q /\ (s < e)%Q /\ (e <= d)%Q.

Definition trimDataInvariant (t : TrimData) : Prop :=
  trimInvariant (startTime t) (endTime t) (duration t).

(** A file that passes both checks of [handleFileSelect]: an allowed type
    and a size not above the ceiling. *)
Definition acceptable (f : File) : bool :=
  includes allowedTypes (type f) && (size f <=? sizeLimit).

(** The list without its entry at position [n]. *)
Definition removeAt {A} (n : nat) (l : list A) : list A :=
  (firstn n l ++ skipn (S n) l)%list.

(** The list with [x] put at position [n]. *)
Definition insertAt {A} (n : nat) (x : A) (l : list A) : list A :=
  (firstn n l ++ x :: skipn n l)%list.

(** Sample clips and sessions. *)
Definition clipA : File := mkFile "a.mp4" 1000 "video/mp4".
Definition clipB : File := mkFile "b.mp4" (200 * 1024 * 1024) "video/mp4".
Definition clipC : File := mkFile "c.mp4" 2000 "video/webm".
Definition clipD : File := mkFile "d.mov" 3000 "video/quicktime".

(** A session with [clipA] selected and its ten-second range loaded. *)
Definition sessionA : App.State :=
  App.handleTrimChange 0 10 10 (App.handleFileSelected clipA App.init).

(** A session whose clip reported a zero duration on metadata load. *)
Definition sessionZero : App.State :=
  App.handleTrimChange 0 0 0 (App.handleFileSelected clipA App.init).

(** The session after the sidebar's start (end) slider reports [v]; [None]
    when the sidebar's trim controls are not rendered. *)
Definition sidebarSetStart (a : App.State) (v : Q) : option App.State :=
  option_map
    (fun props =>
       parent (exec (TrimControls.handleStartTimeChange props v) (mkEnv a tt [])))
    (Render.trimControlsProps a).

Definition sidebarSetEnd (a : App.State) (v : Q) : option App.State :=
  option_map
    (fun props =>
       parent (exec (TrimControls.handleEndTimeChange props v) (mkEnv a tt [])))
    (Render.trimControlsProps a).

(** The preview as App mounts it for clip [f]. *)
Definition previewOf (f : File) : VideoPreview.Props App.State :=
  VideoPreview.mkProps f (Some App.handleTrimChange) false.

(** The range held in the preview's own state. *)
Definition previewRange (s : VideoPreview.State) : TrimData :=
  mkTrimData (VideoPreview.startTime s) (VideoPreview.endTime s)
    (VideoPreview.duration s).

(** A preview showing a ten-second clip with its full range selected. *)
Definition previewA : VideoPreview.State :=
  VideoPreview.mkState "blob:a" 10 0 10 0.

(** A session whose ten-second clip has the range [0..4] selected. *)
Definition sessionTrimmed : App.State :=
  App.handleTrimChange 0 4 10 sessionA.

(** ** Vocabulary of the further properties *)

(** The bounds in order within the clip, possibly meeting. *)
Definition trimOrdered (s e d : Q) : Prop :=
  (0 <= s)%Q /\ (s <= e)%Q /\ (e <= d)%Q.

(** A preview of a ten-second clip with the range [5..8] selected. *)
Definition previewTrimmed : VideoPreview.State :=
  VideoPreview.mkState "blob:a" 10 5 8 0.

(** A session whose ten-second clip has the range [5..8] selected. *)
Definition sessionLate : App.State :=
  App.handleTrimChange 5 8 10 sessionA.

(** That session after [clipC] replaced the clip: the preview stays mounted,
    with its state. *)
Definition sessionReplaced : App.State :=
  App.handleFileSelected clipC sessionLate.

(** The video element once the three-second [clipC] has loaded. *)
Definition shortVideo : VideoPreview.HTMLVideoElement :=
  VideoPreview.mkVideo 3 0.

(** The message [VideoMerger.handleFileSelect] sets for a file it rejects:
    the type check comes first. *)
Definition rejectionMessage (f : File) : string :=
  if includes allowedTypes (type f)
  then name f ++ " is too large (max 100MB)"
  else name f ++ " is not a valid video file".

(** The [onClick] of the move-up button of row [index]:
    [index > 0 && moveVideo(index, index - 1)]. *)
Definition moveUpClick {P : Type} (index : Z) : M P VideoMerger.State unit :=
  if 0 <? index then VideoMerger.moveVideo index (index - 1) else ret tt.

(** The [onClick] of the move-down button of row [index]:
    [index < videos.length - 1 && moveVideo(index, index + 1)]. *)
Definition moveDownClick {P : Type} (index : Z) : M P VideoMerger.State unit :=
  s <- VideoMerger.getState ;;
  if index <? Z.of_nat (List.length (VideoMerger.videos s)) - 1
  then VideoMerger.moveVideo index (index + 1)
  else ret tt.

(** A merge list of four clips. *)
Definition mergerABCD : VideoMerger.State :=
  VideoMerger.mkState [Some clipA; Some clipB; Some clipC; Some clipD] false "".

(** A file of a type outside the allow-list. *)
Definition clipText : File := mkFile "notes.txt" 10 "text/plain".

(** The result object built from a successful response. *)
Definition resultOf (data : ResponseData) : ConversionResult :=
  mkResult (file_id data) ("http://localhost:5000/download/" ++ file_id data).

(** A merge list of two clips. *)
Definition mergerAC : VideoMerger.State :=
  VideoMerger.mkState [Some clipA; Some clipC] false "".

(** A file of exactly the size ceiling. *)
Definition clipAtLimit : File := mkFile "big.mp4" sizeLimit "video/mp4".

(** ** The client as a transition system

    The session together with the number of calls awaiting their outcome in
    each mode.  A dispatch runs the part of its handler that precedes the
    [await]; the continuation runs in a later step, on whatever the session
    is by then. *)
Record Client := mkClient {
  session : App.State;
  inflightSingle : nat;
  inflightMerge : nat
}.

Definition withSession (a' : App.State) (c : Client) : Client :=
  mkClient a' (inflightSingle c) (inflightMerge c).

(** One event of the user interface or of the network.  Each constructor
    carries the condition under which the element that fires the event is
    rendered and enabled. *)
Inductive step : Client -> Client -> Prop :=
| step_mode (c : Client) (m : App.Mode) :
    (* the two mode buttons of the header *)
    step c (withSession (App.setCurrentMode m (session c)) c)
| step_select (c : Client) (u : VideoUploader.State) (w : list Request) (f : File) :
    (* file input or drop zone of the uploader, rendered in single mode *)
    App.currentMode (session c) = App.single ->
    step c (withSession
              (parent (exec (VideoUploader.handleFileSelect
                               (Render.uploaderProps (session c)) f)
                            (mkEnv (session c) u w))) c)
| step_sidebar_start (c : Client) (v : Q) (a' : App.State) :
    (* start slider of the sidebar's trim controls *)
    App.currentMode (session c) = App.single ->
    sidebarSetStart (session c) v = Some a' ->
    step c (withSession a' c)
| step_sidebar_end (c : Client) (v : Q) (a' : App.State) :
    (* end slider of the sidebar's trim controls *)
    App.currentMode (session c) = App.single ->
    sidebarSetEnd (session c) v = Some a' ->
    step c (withSession a' c)
| step_preview_load (c : Client) (props : VideoPreview.Props App.State)
    (s : VideoPreview.State) (w : list Request)
    (video : option VideoPreview.HTMLVideoElement) :
    (* loadedmetadata on the preview's video element *)
    Render.previewProps (session c) = Some props ->
    step c (withSession
              (parent (exec (VideoPreview.handleLoadedMetadata props video)
                            (mkEnv (session c) s w))) c)
| step_preview_start (c : Client) (props : VideoPreview.Props App.State)
    (s : VideoPreview.State) (w : list Request) (v : Q) :
    (* start slider of the preview *)
    Render.previewProps (session c) = Some props ->
    step c (withSession
              (parent (exec (VideoPreview.handleStartTimeChange props v)
                            (mkEnv (session c) s w))) c)
| step_preview_end (c : Client) (props : VideoPreview.Props App.State)
    (s : VideoPreview.State) (w : list Request) (v : Q) :
    (* end slider of the preview *)
    Render.previewProps (session c) = Some props ->
    step c (withSession
              (parent (exec (VideoPreview.handleEndTimeChange props v)
                            (mkEnv (session c) s w))) c)
| step_convert_dispatch (c : Client) (u : VideoUploader.State) (w : list Request)
    (server : Request -> AxiosOutcome) (f : File) :
    (* convert button: rendered with a clip, disabled while converting *)
    App.currentMode (session c) = App.single ->
    App.selectedFile (session c) = Some f ->
    App.isConverting (session c) = false ->
    step c (mkClient
              (parent (snd (VideoUploader.handleConvert_dispatch
                              (Render.uploaderProps (session c)) server f
                              (mkEnv (session c) u w))))
              (S (inflightSingle c)) (inflightMerge c))
| step_trim_dispatch (c : Client) (u : VideoUploader.State) (w : list Request)
    (server : Request -> AxiosOutcome) (f : File) (t : TrimData) :
    (* trim-only button: also disabled without a trim range *)
    App.currentMode (session c) = App.single ->
    App.selectedFile (session c) = Some f ->
    App.trimData (session c) = Some t ->
    App.isConverting (session c) = false ->
    step c (mkClient
              (parent (snd (VideoUploader.handleTrimOnly_dispatch
                              (Render.uploaderProps (session c)) server f t
                              (mkEnv (session c) u w))))
              (S (inflightSingle c)) (inflightMerge c))
| step_convert_settle (c : Client) (n : nat) (a0 : App.State)
    (u : VideoUploader.State) (w : list Request) (o : AxiosOutcome) :
    (* a pending convert call settles *)
    inflightSingle c = S n ->
    step c (mkClient
              (parent (exec (VideoUploader.handleConvert_settled
                               (Render.uploaderProps a0) o)
                            (mkEnv (session c) u w)))
              n (inflightMerge c))
| step_trim_settle (c : Client) (n : nat) (a0 : App.State)
    (u : VideoUploader.State) (w : list Request) (o : AxiosOutcome) :
    (* a pending trim-only call settles *)
    inflightSingle c = S n ->
    step c (mkClient
              (parent (exec (VideoUploader.handleTrimOnly_settled
                               (Render.uploaderProps a0) o)
                            (mkEnv (session c) u w)))
              n (inflightMerge c))
| step_merge_dispatch (c : Client) (m : VideoMerger.State) (w : list Request)
    (server : Request -> AxiosOutcome) :
    (* merge button: rendered with two or more entries, disabled while merging *)
    App.currentMode (session c) = App.merge ->
    (2 <= List.length (VideoMerger.videos m))%nat ->
    App.isMerging (session c) = false ->
    step c (mkClient
              (parent (snd (VideoMerger.handleMerge_dispatch
                              (Render.mergerProps (session c)) server
                              (VideoMerger.videos m)
                              (mkEnv (session c) m w))))
              (inflightSingle c) (S (inflightMerge c)))
| step_merge_settle (c : Client) (n : nat) (a0 : App.State)
    (m : VideoMerger.State) (w : list Request) (o : AxiosOutcome) :
    (* a pending merge call settles *)
    inflightMerge c = S n ->
    step c (mkClient
              (parent (exec (VideoMerger.handleMerge_settled
                               (Render.mergerProps a0) o)
                            (mkEnv (session c) m w)))
              (inflightSingle c) n).

(** Any number of events. *)
Inductive steps : Client -> Client -> Prop :=
| steps_refl (c : Client) : steps c c
| steps_step (c1 c2 c3 : Client) : steps c1 c2 -> step c2 c3 -> steps c1 c3.

(** The client after page load. *)
Definition startClient : Client := mkClient App.init 0 0.

(** What an event that starts or settles no call can do to the session:
    nothing, a mode switch, a file selection, or a new trim range while a
    clip is selected. *)
Inductive edits (a : App.State) : App.State -> Prop :=
| edits_nothing : edits a a
| edits_mode (m : App.Mode) : edits a (App.setCurrentMode m a)
| edits_file (f : File) : edits a (App.handleFileSelected f a)
| edits_trim (s e d : Q) :
    App.selectedFile a <> None -> edits a (App.handleTrimChange s e d a).

(** The session after a continuation of a single-mode call. *)
Inductive settlesSingle (a : App.State) : App.State -> Prop :=
| settlesSingle_success (r : ConversionResult) :
    settlesSingle a (App.handleConversionComplete r a)
| settlesSingle_unsuccessful : settlesSingle a a
| settlesSingle_rejected : settlesSingle a (App.handleConversionStart a).

(** The session after a continuation of a merge call. *)
Inductive settlesMerge (a : App.State) : App.State -> Prop :=
| settlesMerge_success (r : ConversionResult) :
    settlesMerge a (App.handleMergeComplete r a)
| settlesMerge_unsuccessful : settlesMerge a a
| settlesMerge_rejected : settlesMerge a (App.handleMergeStart a).

(** The client once [clipA] is selected and its metadata has loaded. *)
Definition clientA : Client := mkClient sessionA 0 0.

(** The client while a convert call for [clipA] is pending. *)
Definition clientBusy : Client :=
  mkClient (App.handleConversionStart sessionA) 1 0.

(** The client after that call was rejected. *)
Definition clientFailed : Client :=
  mkClient (App.handleConversionStart (App.handleConversionStart sessionA)) 0 0.

(** * Properties *)

(** Unfolds the monad so that a handler run reduces to its final [Env]. *)
Ltac run_handler :=
  unfold exec, bind, call, callIfPresent, setState, axios_post, ret; simpl.

(** ** Orchestrator: convert, trim-only and merge dispatch *)

(** The [catch] block of [handleConvert], run in whatever session is current
    when the call settles: the error is the payload or the fallback, and
    [onConversionStart] sets the busy flag. *)
Lemma handleConvert_settled_rejected (a0 a : App.State)
    (u : VideoUploader.State) (w : list Request) (payload : option string) :
  exec (VideoUploader.handleConvert_settled (Render.uploaderProps a0) (Rejected payload))
       (mkEnv a u w)
  = mkEnv (App.handleConversionStart a)
      (VideoUploader.mkState (VideoUploader.dragActive u)
         (or_fallback payload "Conversion failed. Please try again."))
      w.
Proof. reflexivity. Qed.

(** A response whose [success] is falsy falls through the [if], which has
    no [else]: the continuation changes nothing. *)
Lemma handleConvert_settled_unsuccessful {P} (props : VideoUploader.Props P)
    (e : Env P VideoUploader.State) (data : ResponseData) :
  success data = false ->
  exec (VideoUploader.handleConvert_settled props (Resolved data)) e = e.
Proof.
  intros H. unfold VideoUploader.handleConvert_settled. rewrite H.
  now destruct e.
Qed.

Lemma handleMerge_settled_unsuccessful {P} (props : VideoMerger.Props P)
    (e : Env P VideoMerger.State) (data : ResponseData) :
  success data = false ->
  exec (VideoMerger.handleMerge_settled props (Resolved data)) e = e.
Proof.
  intros H. unfold VideoMerger.handleMerge_settled. rewrite H.
  now destruct e.
Qed.

(** C1 (as the code behaves).  When the awaited call of a convert dispatch
    rejects, the uploader's error becomes the service's error payload, or the
    generic fallback when there is none; the selected clip and the trim range
    are unchanged; exactly one request was sent; but [isConverting] is [true]
    afterwards: the [catch] block calls [onConversionStart], which sets the
    flag instead of clearing it. *)
Theorem convert_failure_leaves_busy (a : App.State) (u : VideoUploader.State)
    (w : list Request) (server : Request -> AxiosOutcome)
    (f : File) (payload : option string) :
  App.selectedFile a = Some f ->
  server (convertRequest a f) = Rejected payload ->
  let e' := exec (VideoUploader.handleConvert (Render.uploaderProps a) server)
                 (mkEnv a u w) in
  VideoUploader.error (local e')
    = or_fallback payload "Conversion failed. Please try again."
  /\ App.isConverting (parent e') = true
  /\ App.selectedFile (parent e') = App.selectedFile a
  /\ App.trimData (parent e') = App.trimData a
  /\ wire e' = (w ++ [convertRequest a f])%list.
Proof.
  intros Hf Hs. unfold VideoUploader.handleConvert. simpl.
  rewrite Hf. run_handler.
  unfold convertRequest, uploadUrl in Hs. simpl in Hs. rewrite Hs.
  simpl. repeat split; now rewrite ?Hf.
Qed.

Lemma convert_failure_leaves_busy_witness :
  let e' := exec (VideoUploader.handleConvert (Render.uploaderProps sessionA)
                    (fun _ => Rejected (Some "ffmpeg failed")))
                 (mkEnv sessionA VideoUploader.init []) in
  VideoUploader.error (local e') = "ffmpeg failed"
  /\ App.isConverting (parent e') = true
  /\ App.selectedFile (parent e') = Some clipA
  /\ App.trimData (parent e') = Some (mkTrimData 0 10 10)
  /\ wire e' = [convertRequest sessionA clipA].
Proof.
  exact (convert_failure_leaves_busy sessionA VideoUploader.init []
           (fun _ => Rejected (Some "ffmpeg failed")) clipA (Some "ffmpeg failed")
           eq_refl eq_refl).
Defined.

(** C10.  A convert or merge dispatch whose call resolves with a falsy
    [success] ends in exactly the state reached at dispatch start: no result
    is stored, the error stays empty, and the busy flag set by
    [onConversionStart] / [onMergeStart] is still [true]. *)
Theorem unsuccessful_response_stays_busy (a : App.State)
    (w : list Request) (server : Request -> AxiosOutcome) (data : ResponseData) :
  success data = false ->
  (forall (u : VideoUploader.State) (f : File),
     App.selectedFile a = Some f ->
     server (convertRequest a f) = Resolved data ->
     let e' := exec (VideoUploader.handleConvert (Render.uploaderProps a) server)
                    (mkEnv a u w) in
     e' = mkEnv (App.handleConversionStart a)
            (VideoUploader.mkState (VideoUploader.dragActive u) "")
            (w ++ [convertRequest a f])%list
     /\ App.isConverting (parent e') = true
     /\ App.convertedVideo (parent e') = None
     /\ VideoUploader.error (local e') = "")
  /\
  (forall (m : VideoMerger.State),
     (2 <= List.length (VideoMerger.videos m))%nat ->
     server (mergeRequest (VideoMerger.videos m)) = Resolved data ->
     let e' := exec (VideoMerger.handleMerge (Render.mergerProps a) server)
                    (mkEnv a m w) in
     e' = mkEnv (App.handleMergeStart a)
            (VideoMerger.mkState (VideoMerger.videos m) (VideoMerger.dragActive m) "")
            (w ++ [mergeRequest (VideoMerger.videos m)])%list
     /\ App.isMerging (parent e') = true
     /\ App.convertedVideo (parent e') = None
     /\ VideoMerger.error (local e') = "").
Proof.
  intros Hd. split.
  - intros u f Hf Hs. unfold VideoUploader.handleConvert. simpl.
    rewrite Hf. run_handler.
    unfold convertRequest, uploadUrl in Hs. simpl in Hs. rewrite Hs.
    simpl. rewrite Hd. simpl. repeat split.
  - intros m Hlen Hs. unfold VideoMerger.handleMerge, VideoMerger.getState.
    run_handler.
    destruct (Nat.ltb_spec (List.length (VideoMerger.videos m)) 2) as [Hlt | _];
      [lia |].
    run_handler.
    unfold mergeRequest, mergeUrl in Hs. rewrite Hs. simpl. rewrite Hd.
    simpl. repeat split.
Qed.

Lemma unsuccessful_response_stays_busy_witness :
  App.isConverting
    (parent (exec (VideoUploader.handleConvert (Render.uploaderProps sessionA)
                     (fun _ => Resolved (mkData false "")))
                  (mkEnv sessionA VideoUploader.init []))) = true
  /\ App.isMerging
       (parent (exec (VideoMerger.handleMerge (Render.mergerProps App.init)
                        (fun _ => Resolved (mkData false "")))
                     (mkEnv App.init
                        (VideoMerger.mkState [Some clipA; Some clipC] false "") [])))
     = true.
Proof.
  destruct (unsuccessful_response_stays_busy sessionA []
              (fun _ => Resolved (mkData false "")) (mkData false "") eq_refl)
    as [Hc _].
  destruct (unsuccessful_response_stays_busy App.init []
              (fun _ => Resolved (mkData false "")) (mkData false "") eq_refl)
    as [_ Hm].
  split.
  - exact (proj1 (proj2 (Hc VideoUploader.init clipA eq_refl eq_refl))).
  - refine (proj1 (proj2 (Hm (VideoMerger.mkState [Some clipA; Some clipC] false "")
                            _ eq_refl))).
    simpl. lia.
Defined.

(** What [handleConvert] puts on the wire when a clip is selected: one
    request, whatever the server answers. *)
Lemma handleConvert_wire (a : App.State) (u : VideoUploader.State)
    (w : list Request) (server : Request -> AxiosOutcome) (f : File) :
  App.selectedFile a = Some f ->
  wire (exec (VideoUploader.handleConvert (Render.uploaderProps a) server)
             (mkEnv a u w))
  = (w ++ [convertRequest a f])%list.
Proof.
  intros Hf. unfold VideoUploader.handleConvert. simpl. rewrite Hf.
  run_handler. fold uploadUrl. fold (convertRequest a f).
  destruct (server _) as [d | p]; simpl; [destruct (success d) |]; reflexivity.
Qed.

(** C4, refuted as stated: with the full range [0..10] of a ten-second clip
    loaded (not narrower than the clip), the convert request still carries
    both bounds. *)
Lemma convert_bounds_sent_for_full_range :
  ~ (forall (a : App.State) (f : File) (server : Request -> AxiosOutcome)
            (rq : Request),
        App.selectedFile a = Some f ->
        In rq (wire (exec (VideoUploader.handleConvert (Render.uploaderProps a) server)
                          (mkEnv a VideoUploader.init []))) ->
        (carriesBounds rq = true
         <-> exists t, App.trimData a = Some t /\ narrower t = true)).
Proof.
  intros H.
  destruct (H sessionA clipA (fun _ => Resolved (mkData true "id"))
              (convertRequest sessionA clipA) eq_refl (or_introl eq_refl))
    as [Hnarrow _].
  destruct (Hnarrow eq_refl) as [t [Ht Hn]].
  injection Ht as <-. discriminate Hn.
Qed.

(** C4, amended.  For every convert dispatch with a selected clip, exactly
    one request is sent; it carries the clip and, if and only if a trim range
    is present in the session (narrower than the clip or not), the two
    bounds of that range; with no trim range it carries the clip alone. *)
Theorem convert_bounds_iff_trimData (a : App.State) (u : VideoUploader.State)
    (w : list Request) (server : Request -> AxiosOutcome) (f : File) :
  App.selectedFile a = Some f ->
  exists rq,
    wire (exec (VideoUploader.handleConvert (Render.uploaderProps a) server)
               (mkEnv a u w)) = (w ++ [rq])%list
    /\ url rq = uploadUrl
    /\ body rq =
         match App.trimData a with
         | Some t => [("video", FilePart f);
                      ("startTime", NumberPart (startTime t));
                      ("endTime", NumberPart (endTime t))]
         | None => [("video", FilePart f)]
         end
    /\ (carriesBounds rq = true <-> App.trimData a <> None).
Proof.
  intros Hf. exists (convertRequest a f). split; [now apply handleConvert_wire |].
  unfold convertRequest, VideoUploader.convertForm, carriesBounds. simpl.
  destruct (App.trimData a) as [t |]; simpl; repeat split; try easy.
Qed.

Lemma convert_bounds_iff_trimData_witness :
  exists rq,
    wire (exec (VideoUploader.handleConvert (Render.uploaderProps sessionA)
                  (fun _ => Resolved (mkData true "id")))
               (mkEnv sessionA VideoUploader.init [])) = [rq]
    /\ url rq = uploadUrl
    /\ body rq = [("video", FilePart clipA);
                  ("startTime", NumberPart 0);
                  ("endTime", NumberPart 10)]
    /\ (carriesBounds rq = true <-> App.trimData sessionA <> None).
Proof.
  exact (convert_bounds_iff_trimData sessionA VideoUploader.init []
           (fun _ => Resolved (mkData true "id")) clipA eq_refl).
Defined.

(** C6, refuted as stated: a clip whose metadata reported duration 0 has the
    (non-null) range [(0, 0, 0)], and [handleTrimOnly] sends it. *)
Lemma trim_only_sent_for_zero_duration :
  ~ (forall (a : App.State) (server : Request -> AxiosOutcome),
        wire (exec (VideoUploader.handleTrimOnly (Render.uploaderProps a) server)
                   (mkEnv a VideoUploader.init [])) <> [] ->
        exists f t, App.selectedFile a = Some f /\ App.trimData a = Some t
                    /\ (0 < duration t)%Q).
Proof.
  intros H.
  destruct (H sessionZero (fun _ => Resolved (mkData true "id")))
    as [f [t [_ [Ht Hd]]]].
  - discriminate.
  - injection Ht as <-. discriminate Hd.
Qed.

(** C6, amended.  A trim-only dispatch proceeds exactly when a clip and a
    trim range are both present, whatever the range's duration: it then sends
    one request to the trim endpoint with the clip and the two bounds; when
    either is missing it is refused locally, nothing is sent and nothing
    changes. *)
Theorem trim_only_requires_clip_and_range (a : App.State)
    (u : VideoUploader.State) (w : list Request)
    (server : Request -> AxiosOutcome) :
  let e' := exec (VideoUploader.handleTrimOnly (Render.uploaderProps a) server)
                 (mkEnv a u w) in
  (forall f t, App.selectedFile a = Some f -> App.trimData a = Some t ->
               wire e' = (w ++ [trimRequest f t])%list)
  /\ (App.selectedFile a = None \/ App.trimData a = None -> e' = mkEnv a u w).
Proof.
  unfold VideoUploader.handleTrimOnly. simpl. split.
  - intros f t Hf Ht. rewrite Hf, Ht. run_handler.
    fold trimUrl. fold (trimRequest f t).
    destruct (server _) as [d | p]; simpl; [destruct (success d) |]; reflexivity.
  - intros [Hf | Ht].
    + now rewrite Hf.
    + rewrite Ht. now destruct (App.selectedFile a).
Qed.

Lemma trim_only_requires_clip_and_range_witness :
  wire (exec (VideoUploader.handleTrimOnly (Render.uploaderProps sessionZero)
                (fun _ => Rejected None))
             (mkEnv sessionZero VideoUploader.init []))
  = [trimRequest clipA (mkTrimData 0 0 0)]
  /\ exec (VideoUploader.handleTrimOnly (Render.uploaderProps App.init)
             (fun _ => Rejected None))
          (mkEnv App.init VideoUploader.init [])
     = mkEnv App.init VideoUploader.init [].
Proof.
  split.
  - exact (proj1 (trim_only_requires_clip_and_range sessionZero VideoUploader.init []
                    (fun _ => Rejected None))
             clipA (mkTrimData 0 0 0) eq_refl eq_refl).
  - exact (proj2 (trim_only_requires_clip_and_range App.init VideoUploader.init []
                    (fun _ => Rejected None))
             (or_introl eq_refl)).
Defined.

(** C8.  With fewer than two entries in the merge list, [handleMerge] only
    sets the message asking for at least two videos: no request is sent,
    [onMergeStart] is not called (the session is untouched), and the list is
    unchanged. *)
Theorem merge_refused_below_two (a : App.State) (m : VideoMerger.State)
    (w : list Request) (server : Request -> AxiosOutcome) :
  (List.length (VideoMerger.videos m) < 2)%nat ->
  exec (VideoMerger.handleMerge (Render.mergerProps a) server) (mkEnv a m w)
  = mkEnv a
      (VideoMerger.mkState (VideoMerger.videos m) (VideoMerger.dragActive m)
         "Please select at least 2 videos to merge")
      w.
Proof.
  intros Hlen. unfold VideoMerger.handleMerge, VideoMerger.getState.
  run_handler.
  destruct (Nat.ltb_spec (List.length (VideoMerger.videos m)) 2) as [_ | Hge];
    [reflexivity | lia].
Qed.

Lemma merge_refused_below_two_witness :
  exec (VideoMerger.handleMerge (Render.mergerProps App.init)
          (fun _ => Resolved (mkData true "id")))
       (mkEnv App.init (VideoMerger.mkState [Some clipA] false "") [])
  = mkEnv App.init
      (VideoMerger.mkState [Some clipA] false
         "Please select at least 2 videos to merge")
      [].
Proof.
  apply (merge_refused_below_two App.init
           (VideoMerger.mkState [Some clipA] false "") []
           (fun _ => Resolved (mkData true "id"))).
  simpl. lia.
Defined.

(** ** Merge list *)

Lemma firstn_1_skipn {A} (l : list A) (n : nat) (x : A) :
  nth_error l n = Some x -> firstn 1 (skipn n l) = [x].
Proof.
  revert l. induction n as [| n IH]; intros [| y l] H; simpl in *; try discriminate.
  - now injection H as ->.
  - now apply IH.
Qed.

Lemma removeAt_length {A} (l : list A) (n : nat) :
  (n < List.length l)%nat ->
  List.length (removeAt n l) = pred (List.length l).
Proof.
  intros H. unfold removeAt.
  rewrite List.length_app, List.length_firstn, List.length_skipn. lia.
Qed.

(** [splice(i, 1)] at an index that addresses [x] removes exactly [x]. *)
Lemma splice_remove_one {A} (l : list A) (i : nat) (x : A) :
  nth_error l i = Some x ->
  splice l (Z.of_nat i) 1 [] = ([x], removeAt i l).
Proof.
  intros Hx.
  assert (Hlt : (i < List.length l)%nat)
    by (apply nth_error_Some; rewrite Hx; discriminate).
  unfold splice.
  destruct (Z.ltb_spec (Z.of_nat i) 0) as [Hneg | _]; [lia |].
  replace (Z.min (Z.of_nat i) (Z.of_nat (List.length l))) with (Z.of_nat i) by lia.
  replace (Z.min (Z.max 1 0) (Z.of_nat (List.length l) - Z.of_nat i)) with 1 by lia.
  rewrite Nat2Z.id. change (Z.to_nat 1) with 1%nat.
  rewrite (firstn_1_skipn l i x Hx). unfold removeAt.
  now rewrite Nat.add_1_r.
Qed.

(** [splice(i, 0, x)] at an index within the array (or at its end) inserts
    [x] there and removes nothing. *)
Lemma splice_insert_one {A} (l : list A) (i : nat) (x : A) :
  (i <= List.length l)%nat ->
  splice l (Z.of_nat i) 0 [x] = ([], insertAt i x l).
Proof.
  intros Hle. unfold splice.
  destruct (Z.ltb_spec (Z.of_nat i) 0) as [Hneg | _]; [lia |].
  replace (Z.min (Z.of_nat i) (Z.of_nat (List.length l))) with (Z.of_nat i) by lia.
  replace (Z.min (Z.max 0 0) (Z.of_nat (List.length l) - Z.of_nat i)) with 0 by lia.
  rewrite Nat2Z.id. change (Z.to_nat 0) with 0%nat.
  now rewrite Nat.add_0_r.
Qed.

(** [moveVideo] on indices that address entries of the list. *)
Lemma moveVideo_in_range {P : Type} (p : P)
    (m : VideoMerger.State) (w : list Request)
    (fromIndex toIndex : nat) (x : VideoMerger.Cell) :
  nth_error (VideoMerger.videos m) fromIndex = Some x ->
  (toIndex < List.length (VideoMerger.videos m))%nat ->
  exec (VideoMerger.moveVideo (Z.of_nat fromIndex) (Z.of_nat toIndex)) (mkEnv p m w)
  = mkEnv p
      (VideoMerger.mkState
         (insertAt toIndex x (removeAt fromIndex (VideoMerger.videos m)))
         (VideoMerger.dragActive m) (VideoMerger.error m))
      w.
Proof.
  intros Hx Hto.
  assert (Hfrom : (fromIndex < List.length (VideoMerger.videos m))%nat)
    by (apply nth_error_Some; rewrite Hx; discriminate).
  unfold VideoMerger.moveVideo, VideoMerger.getState, exec, bind.
  cbn [local].
  rewrite (splice_remove_one _ _ _ Hx). cbn [hd].
  rewrite splice_insert_one by (rewrite removeAt_length; lia).
  reflexivity.
Qed.

(** C7.  For indices that address entries of the list, [moveVideo] stores the
    list obtained by taking the entry at [fromIndex] out and putting it back
    at [toIndex] (the entries in between shift by one), and touches nothing
    else; in particular [moveVideo(2, 0)] turns [[A,B,C,D]] into
    [[C,A,B,D]]. *)
Theorem moveVideo_removes_and_reinserts {P : Type} (p : P)
    (m : VideoMerger.State) (w : list Request)
    (fromIndex toIndex : nat) (x : VideoMerger.Cell) :
  nth_error (VideoMerger.videos m) fromIndex = Some x ->
  (toIndex < List.length (VideoMerger.videos m))%nat ->
  exec (VideoMerger.moveVideo (Z.of_nat fromIndex) (Z.of_nat toIndex)) (mkEnv p m w)
  = mkEnv p
      (VideoMerger.mkState
         (insertAt toIndex x (removeAt fromIndex (VideoMerger.videos m)))
         (VideoMerger.dragActive m) (VideoMerger.error m))
      w
  /\ forall A B C D : VideoMerger.Cell,
       VideoMerger.videos
         (local (exec (VideoMerger.moveVideo 2 0)
                   (mkEnv p (VideoMerger.mkState [A; B; C; D]
                               (VideoMerger.dragActive m) (VideoMerger.error m)) w)))
       = [C; A; B; D].
Proof.
  intros Hx Hto. split; [now apply moveVideo_in_range | reflexivity].
Qed.

Lemma moveVideo_removes_and_reinserts_witness :
  exec (VideoMerger.moveVideo 2 0)
       (mkEnv tt (VideoMerger.mkState
                    [Some clipA; Some clipB; Some clipC; Some clipD] false "") [])
  = mkEnv tt (VideoMerger.mkState
                [Some clipC; Some clipA; Some clipB; Some clipD] false "") [].
Proof.
  refine (proj1 (moveVideo_removes_and_reinserts tt
                   (VideoMerger.mkState
                      [Some clipA; Some clipB; Some clipC; Some clipD] false "")
                   [] 2 0 (Some clipC) eq_refl _)).
  simpl. lia.
Defined.

Lemma removeAt_app {A} (pre post : list A) (k : nat) :
  removeAt (List.length pre + k) (pre ++ post) = (pre ++ removeAt k post)%list.
Proof.
  unfold removeAt. induction pre as [| z pre IH]; simpl; [reflexivity |].
  now f_equal.
Qed.

Lemma insertAt_app {A} (pre post : list A) (k : nat) (y : A) :
  insertAt (List.length pre + k) y (pre ++ post) = (pre ++ insertAt k y post)%list.
Proof.
  unfold insertAt. induction pre as [| z pre IH]; simpl; [reflexivity |].
  now f_equal.
Qed.

(** The move-up button ([toIndex = fromIndex - 1]) swaps an entry with its
    predecessor. *)
Lemma moveVideo_up_swaps {P : Type} (p : P) (w : list Request)
    (pre post : list VideoMerger.Cell) (x y : VideoMerger.Cell) (da : bool)
    (err : string) :
  let i := S (List.length pre) in
  VideoMerger.videos
    (local (exec (VideoMerger.moveVideo (Z.of_nat i) (Z.of_nat i - 1))
              (mkEnv p (VideoMerger.mkState (pre ++ x :: y :: post) da err) w)))
  = (pre ++ y :: x :: post)%list.
Proof.
  intros i.
  assert (Hy : nth_error (pre ++ x :: y :: post) i = Some y).
  { unfold i. rewrite nth_error_app2 by lia.
    replace (S (List.length pre) - List.length pre)%nat with 1%nat by lia.
    reflexivity. }
  replace (Z.of_nat i - 1) with (Z.of_nat (List.length pre)) by (unfold i; lia).
  rewrite (moveVideo_in_range p
             (VideoMerger.mkState (pre ++ x :: y :: post) da err) w
             i (List.length pre) y Hy)
    by (simpl; rewrite List.length_app; simpl; lia).
  cbn [local VideoMerger.videos]. unfold i.
  replace (S (List.length pre)) with (List.length pre + 1)%nat by lia.
  rewrite removeAt_app.
  replace (List.length pre) with (List.length pre + 0)%nat at 1 by lia.
  rewrite insertAt_app. reflexivity.
Qed.

Lemma validate_cons {P : Type} (file : File) (rest acc : list File) :
  @VideoMerger.validate P (file :: rest) acc
  = if negb (includes allowedTypes (type file)) then
      VideoMerger.setError (name file ++ " is not a valid video file") ;;
      VideoMerger.validate rest acc
    else if size file >? sizeLimit then
      VideoMerger.setError (name file ++ " is too large (max 100MB)") ;;
      VideoMerger.validate rest acc
    else VideoMerger.validate rest (acc ++ [file])%list.
Proof. reflexivity. Qed.

(** The [forEach] of [handleFileSelect] collects the acceptable files in
    order; of the component's state it can only change [error]. *)
Lemma validate_spec {P : Type} (files acc : list File)
    (e : Env P VideoMerger.State) :
  fst (VideoMerger.validate files acc e) = (acc ++ filter acceptable files)%list
  /\ parent (snd (VideoMerger.validate files acc e)) = parent e
  /\ VideoMerger.videos (local (snd (VideoMerger.validate files acc e)))
     = VideoMerger.videos (local e)
  /\ VideoMerger.dragActive (local (snd (VideoMerger.validate files acc e)))
     = VideoMerger.dragActive (local e)
  /\ wire (snd (VideoMerger.validate files acc e)) = wire e.
Proof.
  revert acc e. induction files as [| file rest IH]; intros acc e.
  - simpl. now rewrite app_nil_r.
  - rewrite validate_cons. cbn [filter]. unfold acceptable.
    rewrite Z.gtb_ltb, Z.ltb_antisym.
    destruct (includes allowedTypes (type file)); cbn [negb andb];
      [destruct (size file <=? sizeLimit); cbn [negb] |].
    + destruct (IH (acc ++ [file])%list e) as [H1 H2].
      split; [| exact H2].
      etransitivity; [exact H1 |]. now rewrite <- app_assoc.
    + unfold bind, VideoMerger.setError, setState.
      match goal with
      | |- context [VideoMerger.validate rest acc ?e1] =>
          destruct (IH acc e1) as (H1 & H2 & H3 & H4 & H5)
      end.
      repeat split; [exact H1 | exact H2 | exact H3 | exact H4 | exact H5].
    + unfold bind, VideoMerger.setError, setState.
      match goal with
      | |- context [VideoMerger.validate rest acc ?e1] =>
          destruct (IH acc e1) as (H1 & H2 & H3 & H4 & H5)
      end.
      repeat split; [exact H1 | exact H2 | exact H3 | exact H4 | exact H5].
Qed.

(** Whenever a batch contains an acceptable file, [handleFileSelect] ends
    with [setError('')], whatever was reported inside the loop. *)
Lemma handleFileSelect_some_accepted {P : Type} (p : P)
    (m : VideoMerger.State) (w : list Request) (files : list File) :
  filter acceptable files <> [] ->
  exec (VideoMerger.handleFileSelect files) (mkEnv p m w)
  = mkEnv p
      (VideoMerger.mkState
         (VideoMerger.videos m ++ map Some (filter acceptable files))
         (VideoMerger.dragActive m) "")
      w.
Proof.
  intros Hne. unfold VideoMerger.handleFileSelect, exec, bind.
  destruct (validate_spec files [] (mkEnv p m w)) as (H1 & H2 & H3 & H4 & H5).
  destruct (VideoMerger.validate files [] (mkEnv p m w)) as [valid e1].
  simpl in *. subst valid.
  destruct (filter acceptable files) as [| f l]; [congruence |].
  simpl. unfold VideoMerger.setVideos, VideoMerger.setError, setState. simpl.
  now rewrite H2, H3, H4, H5.
Qed.

(** A batch made of one oversized file of an allowed type: nothing is
    added and the error names the file. *)
Lemma handleFileSelect_single_oversized {P : Type} (p : P)
    (m : VideoMerger.State) (w : list Request) (f : File) :
  includes allowedTypes (type f) = true ->
  sizeLimit < size f ->
  exec (VideoMerger.handleFileSelect [f]) (mkEnv p m w)
  = mkEnv p
      (VideoMerger.mkState (VideoMerger.videos m) (VideoMerger.dragActive m)
         (name f ++ " is too large (max 100MB)"))
      w.
Proof.
  intros Ht Hs. unfold VideoMerger.handleFileSelect, exec, bind.
  rewrite validate_cons, Ht. cbn [negb].
  destruct (Z.gtb_spec (size f) sizeLimit) as [_ | Hle]; [| lia].
  reflexivity.
Qed.

(** C3 (as the code behaves).  For a batch of three files of which the first
    and third are acceptable and the second is above the size ceiling, the
    list gains the first and the third, in that order, after its previous
    entries; but the error left behind is the empty string: the message
    naming the second file, set inside the loop, is overwritten by the
    [setError('')] that follows the append. *)
Theorem batch_with_oversized_second_reports_nothing {P : Type} (p : P)
    (m : VideoMerger.State) (w : list Request) (f1 f2 f3 : File) :
  acceptable f1 = true ->
  sizeLimit < size f2 ->
  acceptable f3 = true ->
  exec (VideoMerger.handleFileSelect [f1; f2; f3]) (mkEnv p m w)
  = mkEnv p
      (VideoMerger.mkState (VideoMerger.videos m ++ [Some f1; Some f3])
         (VideoMerger.dragActive m) "")
      w.
Proof.
  intros H1 H2 H3.
  assert (Hf : filter acceptable [f1; f2; f3] = [f1; f3]).
  { simpl. rewrite H1, H3.
    replace (acceptable f2) with false; [reflexivity |].
    unfold acceptable.
    destruct (Z.leb_spec (size f2) sizeLimit) as [Hle | _]; [lia |].
    now rewrite andb_false_r. }
  rewrite handleFileSelect_some_accepted; rewrite Hf; [reflexivity | discriminate].
Qed.

Lemma batch_with_oversized_second_reports_nothing_witness :
  exec (VideoMerger.handleFileSelect [clipA; clipB; clipC])
       (mkEnv tt (VideoMerger.mkState [Some clipD] false "") [])
  = mkEnv tt (VideoMerger.mkState [Some clipD; Some clipA; Some clipC] false "") [].
Proof.
  exact (batch_with_oversized_second_reports_nothing tt
           (VideoMerger.mkState [Some clipD] false "") [] clipA clipB clipC
           eq_refl eq_refl eq_refl).
Defined.

(** ** Trim model *)

(** C9 (as the code behaves).  When the metadata of the previewed clip
    loads with a duration [d > 0], the handler hands the triple [(0, d, d)]
    to the owning session, whose trim range becomes exactly that, and sets
    the preview's own [duration] and [endTime] to [d]; but it never writes
    the preview's [startTime].  The preview keeps its state when the clip is
    replaced, so a start bound dragged on the previous clip survives the
    load: the preview's own trim state is then [(startTime, d, d)] with the
    old start bound, which is not [0] and, when the new clip is shorter than
    that bound, lies beyond [endTime]. *)
Theorem metadata_load_keeps_old_start (a : App.State)
    (props : VideoPreview.Props App.State) (s : VideoPreview.State)
    (w : list Request) (video : VideoPreview.HTMLVideoElement) :
  Render.previewProps a = Some props ->
  (0 < VideoPreview.video_duration video)%Q ->
  let d := VideoPreview.video_duration video in
  let e' := exec (VideoPreview.handleLoadedMetadata props (Some video))
                 (mkEnv a s w) in
  App.trimData (parent e') = Some (mkTrimData 0 d d)
  /\ previewRange (local e') = mkTrimData (VideoPreview.startTime s) d d
  /\ (~ (VideoPreview.startTime s == 0)%Q ->
      ~ (VideoPreview.startTime (local e') == 0)%Q)
  /\ ((d < VideoPreview.startTime s)%Q ->
      ~ trimDataInvariant (previewRange (local e')))
  /\ wire e' = w.
Proof.
  intros Hp _ d e'. unfold Render.previewProps in Hp.
  destruct (App.convertedVideo a); [discriminate |].
  destruct (App.selectedFile a) as [f |]; [| discriminate].
  destruct (App.currentMode a); [| discriminate].
  injection Hp as <-. subst e'.
  split; [reflexivity |]. split; [reflexivity |]. split; [| split].
  - intros Hs. exact Hs.
  - intros Hlt (_ & Hse & _).
    cbn [previewRange startTime endTime] in Hse.
    change (VideoPreview.startTime s < d)%Q in Hse.
    exact (Qlt_irrefl _ (Qlt_trans _ _ _ Hlt Hse)).
  - reflexivity.
Qed.

(** The preview state [(5, 8, 10)] and the session range that goes with it
    arise from mount by a metadata load and two drags. *)
Lemma previewTrimmed_arises :
  exec (VideoPreview.handleEndTimeChange (previewOf clipA) 8)
    (exec (VideoPreview.handleStartTimeChange (previewOf clipA) 5)
       (exec (VideoPreview.handleLoadedMetadata (previewOf clipA)
                (Some (VideoPreview.mkVideo 10 0)))
          (mkEnv (App.handleFileSelected clipA App.init)
             (VideoPreview.mkState "blob:a" 0 0 0 0) [])))
  = mkEnv sessionLate previewTrimmed [].
Proof. reflexivity. Qed.

Lemma metadata_load_keeps_old_start_witness :
  let e' := exec (VideoPreview.handleLoadedMetadata (previewOf clipC)
                    (Some shortVideo))
                 (mkEnv sessionReplaced previewTrimmed []) in
  App.trimData (parent e') = Some (mkTrimData 0 3 3)
  /\ previewRange (local e') = mkTrimData 5 3 3
  /\ ~ (VideoPreview.startTime (local e') == 0)%Q
  /\ ~ trimDataInvariant (previewRange (local e')).
Proof.
  destruct (metadata_load_keeps_old_start sessionReplaced (previewOf clipC)
              previewTrimmed [] shortVideo eq_refl eq_refl)
    as (H1 & H2 & H3 & H4 & _).
  refine (conj H1 (conj H2 (conj (H3 _) (H4 _)))).
  - discriminate.
  - reflexivity.
Defined.

(** The emission holds for any callback and any prior state of the preview. *)
Lemma handleLoadedMetadata_emits {P : Type} (f : File)
    (cb : Q -> Q -> Q -> P -> P) (p : P) (s : VideoPreview.State)
    (w : list Request) (video : VideoPreview.HTMLVideoElement) :
  let d := VideoPreview.video_duration video in
  exec (VideoPreview.handleLoadedMetadata (VideoPreview.mkProps f (Some cb) false)
          (Some video))
       (mkEnv p s w)
  = mkEnv (cb 0%Q d d p)
      (VideoPreview.mkState (VideoPreview.videoUrl s) d (VideoPreview.startTime s) d
         (VideoPreview.currentTime s))
      w.
Proof. reflexivity. Qed.

(** What the two start-slider handlers compute. *)
Lemma sidebarSetStart_result (a : App.State) (f : File) (t : TrimData) (v : Q) :
  App.selectedFile a = Some f -> App.trimData a = Some t ->
  sidebarSetStart a v
  = Some (App.handleTrimChange v
            (if Qle_bool (endTime t) v then Qmin (v + 1) (duration t) else endTime t)
            (duration t) a).
Proof.
  intros Hf Ht. unfold sidebarSetStart, Render.trimControlsProps.
  rewrite Hf, Ht. unfold TrimControls.handleStartTimeChange. cbn [option_map].
  cbn [TrimControls.trimData TrimControls.onTrimChange].
  now destruct (Qle_bool (endTime t) v).
Qed.

Lemma sidebarSetEnd_result (a : App.State) (f : File) (t : TrimData) (v : Q) :
  App.selectedFile a = Some f -> App.trimData a = Some t ->
  sidebarSetEnd a v
  = Some (App.handleTrimChange
            (if Qle_bool v (startTime t) then Qmax (v - 1) 0 else startTime t)
            v (duration t) a).
Proof.
  intros Hf Ht. unfold sidebarSetEnd, Render.trimControlsProps.
  rewrite Hf, Ht. unfold TrimControls.handleEndTimeChange. cbn [option_map].
  cbn [TrimControls.trimData TrimControls.onTrimChange].
  now destruct (Qle_bool v (startTime t)).
Qed.

Lemma previewSetStart_result {P : Type} (f : File) (cb : Q -> Q -> Q -> P -> P)
    (p : P) (s : VideoPreview.State) (w : list Request) (v : Q) :
  let e' := if Qle_bool (VideoPreview.endTime s) v
            then Qmin (v + 1) (VideoPreview.duration s)
            else VideoPreview.endTime s in
  exec (VideoPreview.handleStartTimeChange (VideoPreview.mkProps f (Some cb) false) v)
       (mkEnv p s w)
  = mkEnv (cb v e' (VideoPreview.duration s) p)
      (VideoPreview.mkState (VideoPreview.videoUrl s) (VideoPreview.duration s) v e'
         (VideoPreview.currentTime s))
      w.
Proof.
  unfold VideoPreview.handleStartTimeChange, VideoPreview.getState, exec, bind.
  cbn [local]. now destruct (Qle_bool (VideoPreview.endTime s) v).
Qed.

Lemma previewSetEnd_result {P : Type} (f : File) (cb : Q -> Q -> Q -> P -> P)
    (p : P) (s : VideoPreview.State) (w : list Request) (v : Q) :
  let s' := if Qle_bool v (VideoPreview.startTime s)
            then Qmax (v - 1) 0
            else VideoPreview.startTime s in
  exec (VideoPreview.handleEndTimeChange (VideoPreview.mkProps f (Some cb) false) v)
       (mkEnv p s w)
  = mkEnv (cb s' v (VideoPreview.duration s) p)
      (VideoPreview.mkState (VideoPreview.videoUrl s) (VideoPreview.duration s) s' v
         (VideoPreview.currentTime s))
      w.
Proof.
  unfold VideoPreview.handleEndTimeChange, VideoPreview.getState, exec, bind.
  cbn [local]. now destruct (Qle_bool v (VideoPreview.startTime s)).
Qed.

Lemma Qle_bool_false_lt (x y : Q) : Qle_bool x y = false -> (y < x)%Q.
Proof.
  intros H. apply Qnot_le_lt. intros Hle.
  apply Qle_bool_iff in Hle. congruence.
Qed.

Lemma Qle_bool_of_le (x y : Q) : (x <= y)%Q -> Qle_bool x y = true.
Proof. apply Qle_bool_iff. Qed.

Lemma Qle_bool_of_lt (x y : Q) : (y < x)%Q -> Qle_bool x y = false.
Proof.
  intros H. destruct (Qle_bool x y) eqn:E; [| reflexivity].
  apply Qle_bool_iff in E. exfalso. exact (Qlt_not_le _ _ H E).
Qed.

(** C5, refuted as stated: the handler stores the value it is given, so a
    value above the duration is not brought back into [[0, duration]]. *)
Lemma setStart_does_not_clamp :
  ~ (forall (a a' : App.State) (t' : TrimData) (v : Q),
        sidebarSetStart a v = Some a' ->
        App.trimData a' = Some t' ->
        (0 <= startTime t')%Q /\ (startTime t' <= duration t')%Q).
Proof.
  intros H.
  destruct (H sessionTrimmed
              (App.handleTrimChange 20 10 10 sessionTrimmed)
              (mkTrimData 20 10 10) 20%Q eq_refl eq_refl) as [_ Hle].
  apply Hle. reflexivity.
Qed.

(** C5, amended.  For every trim state and every value [v], the start
    handler stores [v] itself as the start bound (it does not clamp; the
    slider that calls it ranges over [[0, duration]]) and keeps the duration;
    if [v >= endTime] the end bound becomes [min(v + 1, duration)], otherwise
    it is unchanged.  This holds for the sidebar's controls, acting on the
    session's range, and for the preview's, acting on its own state and
    emitting the same triple.  With duration 10 and end bound 4, the value 6
    gives end bound 7. *)
Theorem setStart_keeps_value_and_pushes_end (a : App.State) (f : File)
    (t : TrimData) (s : VideoPreview.State) (w : list Request) (v : Q) :
  App.selectedFile a = Some f ->
  App.trimData a = Some t ->
  (exists a' t',
      sidebarSetStart a v = Some a' /\ App.trimData a' = Some t'
      /\ startTime t' = v /\ duration t' = duration t
      /\ ((endTime t <= v)%Q -> endTime t' = Qmin (v + 1) (duration t))
      /\ ((v < endTime t)%Q -> endTime t' = endTime t))
  /\ (let e' := exec (VideoPreview.handleStartTimeChange (previewOf f) v)
                     (mkEnv a s w) in
      let s' := local e' in
      App.trimData (parent e') = Some (previewRange s')
      /\ VideoPreview.startTime s' = v
      /\ VideoPreview.duration s' = VideoPreview.duration s
      /\ ((VideoPreview.endTime s <= v)%Q ->
          VideoPreview.endTime s' = Qmin (v + 1) (VideoPreview.duration s))
      /\ ((v < VideoPreview.endTime s)%Q ->
          VideoPreview.endTime s' = VideoPreview.endTime s))
  /\ (duration t = 10%Q -> endTime t = 4%Q -> v = 6%Q ->
      exists a' t',
        sidebarSetStart a v = Some a' /\ App.trimData a' = Some t'
        /\ endTime t' = 7%Q).
Proof.
  intros Hf Ht. split; [| split].
  - eexists. eexists.
    split; [exact (sidebarSetStart_result a f t v Hf Ht) |].
    split; [reflexivity |]. cbn [startTime endTime duration].
    split; [reflexivity |]. split; [reflexivity |]. split.
    + intros Hle. now rewrite (Qle_bool_of_le _ _ Hle).
    + intros Hlt. now rewrite (Qle_bool_of_lt _ _ Hlt).
  - unfold previewOf. rewrite previewSetStart_result. cbn [local parent].
    unfold previewRange, App.handleTrimChange.
    cbn [VideoPreview.startTime VideoPreview.endTime VideoPreview.duration
         App.trimData App.setTrimData].
    split; [reflexivity |]. split; [reflexivity |]. split; [reflexivity |]. split.
    + intros Hle. now rewrite (Qle_bool_of_le _ _ Hle).
    + intros Hlt. now rewrite (Qle_bool_of_lt _ _ Hlt).
  - intros Hd He ->. eexists. eexists.
    split; [exact (sidebarSetStart_result a f t 6%Q Hf Ht) |].
    split; [reflexivity |]. cbn [endTime]. now rewrite Hd, He.
Qed.

Lemma setStart_keeps_value_and_pushes_end_witness :
  exists a' t',
    sidebarSetStart sessionTrimmed 6 = Some a' /\ App.trimData a' = Some t'
    /\ endTime t' = 7%Q.
Proof.
  exact (proj2 (proj2 (setStart_keeps_value_and_pushes_end sessionTrimmed clipA
                         (mkTrimData 0 4 10) previewA [] 6%Q eq_refl eq_refl))
           eq_refl eq_refl eq_refl).
Defined.

Lemma Qlt_plus_one (v : Q) : (v < v + 1)%Q.
Proof.
  apply Qlt_minus_iff. setoid_replace (v + 1 + - v)%Q with 1%Q by ring.
  reflexivity.
Qed.

Lemma Qlt_minus_one (v : Q) : (v - 1 < v)%Q.
Proof.
  apply Qlt_minus_iff. setoid_replace (v + - (v - 1))%Q with 1%Q by ring.
  reflexivity.
Qed.

(** [Math.min(d + 1, d)] is [d] itself. *)
Lemma Qmin_plus_one_cap (d : Q) : Qmin (d + 1) d = d.
Proof.
  unfold Qmin, GenericMinMax.gmin.
  now rewrite (proj1 (Qgt_alt (d + 1) d) (Qlt_plus_one d)).
Qed.

(** A window whose two bounds coincide breaks the invariant. *)
Lemma empty_window_not_invariant (x d : Q) : ~ trimInvariant x x d.
Proof. intros (_ & Hlt & _). exact (Qlt_irrefl _ Hlt). Qed.

(** Away from the right edge, a start drag keeps the invariant. *)
Lemma start_drag_invariant (s e d v : Q) :
  trimInvariant s e d -> (0 <= v)%Q -> (v < d)%Q ->
  trimInvariant v (if Qle_bool e v then Qmin (v + 1) d else e) d.
Proof.
  intros (Hs & Hse & Hed) H0 Hv. unfold trimInvariant.
  destruct (Qle_bool e v) eqn:E.
  - repeat split; [exact H0 | | apply Q.le_min_r].
    apply Q.min_glb_lt; [apply Qlt_plus_one | exact Hv].
  - repeat split; [exact H0 | now apply Qle_bool_false_lt | exact Hed].
Qed.

(** Away from the left edge, an end drag keeps the invariant. *)
Lemma end_drag_invariant (s e d v : Q) :
  trimInvariant s e d -> (0 < v)%Q -> (v <= d)%Q ->
  trimInvariant (if Qle_bool v s then Qmax (v - 1) 0 else s) v d.
Proof.
  intros (Hs & Hse & Hed) H0 Hv. unfold trimInvariant.
  destruct (Qle_bool v s) eqn:E.
  - repeat split; [apply Q.le_max_r | | exact Hv].
    apply Q.max_lub_lt; [apply Qlt_minus_one | exact H0].
  - repeat split; [exact Hs | now apply Qle_bool_false_lt | exact Hv].
Qed.

(** The sidebar's sliders keep the session's range valid for drags strictly
    inside the edge that would close the window. *)
Lemma sidebar_drag_preserves_invariant (a : App.State) (f : File)
    (t : TrimData) (v : Q) :
  App.selectedFile a = Some f -> App.trimData a = Some t ->
  trimDataInvariant t ->
  ((0 <= v)%Q -> (v < duration t)%Q ->
   exists a' t', sidebarSetStart a v = Some a' /\ App.trimData a' = Some t'
                 /\ trimDataInvariant t')
  /\ ((0 < v)%Q -> (v <= duration t)%Q ->
      exists a' t', sidebarSetEnd a v = Some a' /\ App.trimData a' = Some t'
                    /\ trimDataInvariant t').
Proof.
  intros Hf Ht Hinv. split; intros H0 Hv; eexists; eexists.
  - split; [exact (sidebarSetStart_result a f t v Hf Ht) |].
    split; [reflexivity |]. now apply (start_drag_invariant (startTime t)).
  - split; [exact (sidebarSetEnd_result a f t v Hf Ht) |].
    split; [reflexivity |]. now apply (end_drag_invariant _ (endTime t)).
Qed.

(** The same for the preview's own sliders and state. *)
Lemma preview_drag_preserves_invariant {P : Type} (f : File)
    (cb : Q -> Q -> Q -> P -> P) (p : P) (s : VideoPreview.State)
    (w : list Request) (v : Q) :
  trimDataInvariant (previewRange s) ->
  ((0 <= v)%Q -> (v < VideoPreview.duration s)%Q ->
   trimDataInvariant
     (previewRange
        (local (exec (VideoPreview.handleStartTimeChange
                        (VideoPreview.mkProps f (Some cb) false) v)
                     (mkEnv p s w)))))
  /\ ((0 < v)%Q -> (v <= VideoPreview.duration s)%Q ->
      trimDataInvariant
        (previewRange
           (local (exec (VideoPreview.handleEndTimeChange
                           (VideoPreview.mkProps f (Some cb) false) v)
                        (mkEnv p s w))))).
Proof.
  intros Hinv. split; intros H0 Hv.
  - rewrite previewSetStart_result.
    now apply (start_drag_invariant (VideoPreview.startTime s)).
  - rewrite previewSetEnd_result.
    now apply (end_drag_invariant _ (VideoPreview.endTime s)).
Qed.

(** C2 (as the code behaves).  From any valid range, dragging the start
    slider to its right end ([v = duration]) stores [startTime = endTime =
    duration], and dragging the end slider to its left end ([v = 0]) stores
    [startTime = endTime = 0]: the cap in [Math.min(v + 1, duration)], resp.
    [Math.max(v - 1, 0)], leaves no room for the window, so the invariant
    [startTime < endTime] is broken by a drag value inside [[0, duration]].
    Both the sidebar's controls and the preview's behave so. *)
Theorem drag_to_edge_collapses_window (a : App.State) (f : File)
    (t : TrimData) (s : VideoPreview.State) (w : list Request) :
  App.selectedFile a = Some f ->
  App.trimData a = Some t ->
  trimDataInvariant t ->
  trimDataInvariant (previewRange s) ->
  (exists a' t',
      sidebarSetStart a (duration t) = Some a' /\ App.trimData a' = Some t'
      /\ startTime t' = duration t /\ endTime t' = duration t
      /\ ~ trimDataInvariant t')
  /\ (exists a' t',
         sidebarSetEnd a 0 = Some a' /\ App.trimData a' = Some t'
         /\ startTime t' = 0%Q /\ endTime t' = 0%Q
         /\ ~ trimDataInvariant t')
  /\ (let s' := local (exec (VideoPreview.handleStartTimeChange (previewOf f)
                               (VideoPreview.duration s))
                            (mkEnv a s w)) in
      VideoPreview.startTime s' = VideoPreview.duration s
      /\ VideoPreview.endTime s' = VideoPreview.duration s
      /\ ~ trimDataInvariant (previewRange s'))
  /\ (let s' := local (exec (VideoPreview.handleEndTimeChange (previewOf f) 0)
                            (mkEnv a s w)) in
      VideoPreview.startTime s' = 0%Q
      /\ VideoPreview.endTime s' = 0%Q
      /\ ~ trimDataInvariant (previewRange s')).
Proof.
  intros Hf Ht (Hs & Hse & Hed) (Hs' & Hse' & Hed').
  cbn [previewRange startTime endTime duration] in Hs', Hse', Hed'.
  split; [| split; [| split]].
  - eexists. eexists.
    split; [exact (sidebarSetStart_result a f t (duration t) Hf Ht) |].
    split; [reflexivity |]. cbn [startTime endTime duration].
    rewrite (Qle_bool_of_le _ _ Hed), Qmin_plus_one_cap.
    repeat split. apply empty_window_not_invariant.
  - eexists. eexists.
    split; [exact (sidebarSetEnd_result a f t 0%Q Hf Ht) |].
    split; [reflexivity |]. cbn [startTime endTime duration].
    rewrite (Qle_bool_of_le _ _ Hs).
    repeat split. apply empty_window_not_invariant.
  - unfold previewOf. rewrite previewSetStart_result.
    cbn [local previewRange VideoPreview.startTime VideoPreview.endTime
         VideoPreview.duration].
    rewrite (Qle_bool_of_le _ _ Hed'), Qmin_plus_one_cap.
    repeat split. apply empty_window_not_invariant.
  - unfold previewOf. rewrite previewSetEnd_result.
    cbn [local previewRange VideoPreview.startTime VideoPreview.endTime
         VideoPreview.duration].
    rewrite (Qle_bool_of_le _ _ Hs').
    repeat split. apply empty_window_not_invariant.
Qed.

Lemma drag_to_edge_collapses_window_witness :
  trimDataInvariant (mkTrimData 0 10 10)
  /\ sidebarSetStart sessionA 10 = Some (App.handleTrimChange 10 10 10 sessionA)
  /\ ~ trimDataInvariant (mkTrimData 10 10 10)
  /\ sidebarSetEnd sessionA 0 = Some (App.handleTrimChange 0 0 10 sessionA)
  /\ ~ trimDataInvariant (mkTrimData 0 0 10).
Proof.
  assert (Hinv : trimDataInvariant (mkTrimData 0 10 10))
    by (repeat split; discriminate).
  destruct (drag_to_edge_collapses_window sessionA clipA (mkTrimData 0 10 10)
              previewA [] eq_refl eq_refl Hinv Hinv)
    as ((a1 & t1 & Ha1 & Ht1 & _ & _ & Hn1)
        & (a2 & t2 & Ha2 & Ht2 & _ & _ & Hn2) & _).
  injection Ha1 as <-. injection Ht1 as <-.
  injection Ha2 as <-. injection Ht2 as <-.
  exact (conj Hinv (conj eq_refl (conj Hn1 (conj eq_refl Hn2)))).
Defined.

(** * Further properties of the handlers *)

(** ** Trim model: the end slider, windows and agreement *)

(** The end handlers store the value they are given and keep the duration;
    if the value is at or below the start bound the start bound becomes
    [max(v - 1, 0)], otherwise it is unchanged.  With start bound 5, the
    value 3 gives start bound 2. *)
Theorem setEnd_keeps_value_and_pulls_start (a : App.State) (f : File)
    (t : TrimData) (s : VideoPreview.State) (w : list Request) (v : Q) :
  App.selectedFile a = Some f ->
  App.trimData a = Some t ->
  (exists a' t',
      sidebarSetEnd a v = Some a' /\ App.trimData a' = Some t'
      /\ endTime t' = v /\ duration t' = duration t
      /\ ((v <= startTime t)%Q -> startTime t' = Qmax (v - 1) 0)
      /\ ((startTime t < v)%Q -> startTime t' = startTime t))
  /\ (let e' := exec (VideoPreview.handleEndTimeChange (previewOf f) v)
                     (mkEnv a s w) in
      let s' := local e' in
      VideoPreview.endTime s' = v
      /\ VideoPreview.duration s' = VideoPreview.duration s
      /\ ((v <= VideoPreview.startTime s)%Q ->
          VideoPreview.startTime s' = Qmax (v - 1) 0)
      /\ ((VideoPreview.startTime s < v)%Q ->
          VideoPreview.startTime s' = VideoPreview.startTime s)
      /\ wire e' = w)
  /\ (startTime t = 5%Q -> v = 3%Q ->
      exists a' t',
        sidebarSetEnd a v = Some a' /\ App.trimData a' = Some t'
        /\ startTime t' = 2%Q).
Proof.
  intros Hf Ht. split; [| split].
  - eexists. eexists.
    split; [exact (sidebarSetEnd_result a f t v Hf Ht) |].
    split; [reflexivity |]. cbn [startTime endTime duration].
    split; [reflexivity |]. split; [reflexivity |]. split.
    + intros Hle. now rewrite (Qle_bool_of_le _ _ Hle).
    + intros Hlt. now rewrite (Qle_bool_of_lt _ _ Hlt).
  - unfold previewOf. rewrite previewSetEnd_result. cbn [local wire].
    cbn [VideoPreview.startTime VideoPreview.endTime VideoPreview.duration].
    split; [reflexivity |]. split; [reflexivity |]. split; [| split].
    + intros Hle. now rewrite (Qle_bool_of_le _ _ Hle).
    + intros Hlt. now rewrite (Qle_bool_of_lt _ _ Hlt).
    + reflexivity.
  - intros Hs ->. eexists. eexists.
    split; [exact (sidebarSetEnd_result a f t 3%Q Hf Ht) |].
    split; [reflexivity |]. cbn [startTime]. now rewrite Hs.
Qed.

Lemma setEnd_keeps_value_and_pulls_start_witness :
  exists a' t',
    sidebarSetEnd sessionLate 3 = Some a' /\ App.trimData a' = Some t'
    /\ startTime t' = 2%Q.
Proof.
  exact (proj2 (proj2 (setEnd_keeps_value_and_pulls_start sessionLate clipA
                         (mkTrimData 5 8 10) previewTrimmed [] 3%Q
                         eq_refl eq_refl))
           eq_refl eq_refl).
Defined.

(** From a valid range ([0 <= startTime < endTime <= duration]), a start
    drag to any value in [[0, duration)] and an end drag to any value in
    [(0, duration]] store a valid range again, in the sidebar's controls (on
    the session's range) and in the preview's (on its own state). *)
Theorem interior_drags_keep_invariant (a : App.State) (f : File)
    (t : TrimData) (s : VideoPreview.State) (w : list Request) (v : Q) :
  App.selectedFile a = Some f ->
  App.trimData a = Some t ->
  trimDataInvariant t ->
  trimDataInvariant (previewRange s) ->
  ((0 <= v)%Q -> (v < duration t)%Q ->
   exists a' t', sidebarSetStart a v = Some a' /\ App.trimData a' = Some t'
                 /\ trimDataInvariant t')
  /\ ((0 < v)%Q -> (v <= duration t)%Q ->
      exists a' t', sidebarSetEnd a v = Some a' /\ App.trimData a' = Some t'
                    /\ trimDataInvariant t')
  /\ ((0 <= v)%Q -> (v < VideoPreview.duration s)%Q ->
      trimDataInvariant
        (previewRange
           (local (exec (VideoPreview.handleStartTimeChange (previewOf f) v)
                     (mkEnv a s w)))))
  /\ ((0 < v)%Q -> (v <= VideoPreview.duration s)%Q ->
      trimDataInvariant
        (previewRange
           (local (exec (VideoPreview.handleEndTimeChange (previewOf f) v)
                     (mkEnv a s w))))).
Proof.
  intros Hf Ht Hinv Hinv'.
  destruct (sidebar_drag_preserves_invariant a f t v Hf Ht Hinv) as [H1 H2].
  destruct (preview_drag_preserves_invariant f App.handleTrimChange a s w v Hinv')
    as [H3 H4].
  exact (conj H1 (conj H2 (conj H3 H4))).
Qed.

Lemma interior_drags_keep_invariant_witness :
  (exists a' t', sidebarSetStart sessionLate 9 = Some a'
                 /\ App.trimData a' = Some t' /\ trimDataInvariant t')
  /\ trimDataInvariant
       (previewRange
          (local (exec (VideoPreview.handleEndTimeChange (previewOf clipA) 2)
                    (mkEnv sessionLate previewTrimmed [])))).
Proof.
  assert (Hinv : trimDataInvariant (mkTrimData 5 8 10))
    by (repeat split; discriminate).
  destruct (interior_drags_keep_invariant sessionLate clipA (mkTrimData 5 8 10)
              previewTrimmed [] 9%Q eq_refl eq_refl Hinv Hinv) as (H1 & _).
  destruct (interior_drags_keep_invariant sessionLate clipA (mkTrimData 5 8 10)
              previewTrimmed [] 2%Q eq_refl eq_refl Hinv Hinv) as (_ & _ & _ & H4).
  split; [apply H1 | apply H4]; first [discriminate | reflexivity].
Defined.

Lemma Qle_plus_one (v : Q) : (v <= v + 1)%Q.
Proof. apply Qlt_le_weak, Qlt_plus_one. Qed.

Lemma Qle_minus_one (v : Q) : (v - 1 <= v)%Q.
Proof. apply Qlt_le_weak, Qlt_minus_one. Qed.

(** Any start value inside the clip leaves the bounds in order; the old
    start bound does not matter. *)
Lemma start_drag_ordered (e d v : Q) :
  (e <= d)%Q -> (0 <= v)%Q -> (v <= d)%Q ->
  trimOrdered v (if Qle_bool e v then Qmin (v + 1) d else e) d.
Proof.
  intros Hed H0 Hv. unfold trimOrdered.
  destruct (Qle_bool e v) eqn:E.
  - repeat split; [exact H0 | | apply Q.le_min_r].
    apply Q.min_glb; [apply Qle_plus_one | exact Hv].
  - repeat split; [exact H0 | | exact Hed].
    apply Qlt_le_weak. now apply Qle_bool_false_lt.
Qed.

(** Any end value inside the clip leaves the bounds in order; the old end
    bound does not matter. *)
Lemma end_drag_ordered (s d v : Q) :
  (0 <= s)%Q -> (0 <= v)%Q -> (v <= d)%Q ->
  trimOrdered (if Qle_bool v s then Qmax (v - 1) 0 else s) v d.
Proof.
  intros Hs H0 Hv. unfold trimOrdered.
  destruct (Qle_bool v s) eqn:E.
  - repeat split; [apply Q.le_max_r | | exact Hv].
    apply Q.max_lub; [apply Qle_minus_one | exact H0].
  - repeat split; [exact Hs | | exact Hv].
    apply Qlt_le_weak. now apply Qle_bool_false_lt.
Qed.

(** For every slider value in [[0, duration]], edges included, the range
    stored by a drag has its bounds in order within the clip
    ([0 <= startTime <= endTime <= duration]).  A start drag needs only the
    old end bound to be within the duration, and an end drag only the old
    start bound to be non-negative: a range whose bounds had crossed is put
    back in order by one drag. *)
Theorem in_range_drag_orders_bounds (a : App.State) (f : File)
    (t : TrimData) (s : VideoPreview.State) (w : list Request) (v : Q) :
  App.selectedFile a = Some f ->
  App.trimData a = Some t ->
  (0 <= v)%Q -> (v <= duration t)%Q -> (v <= VideoPreview.duration s)%Q ->
  ((endTime t <= duration t)%Q ->
   exists a' t', sidebarSetStart a v = Some a' /\ App.trimData a' = Some t'
                 /\ trimOrdered (startTime t') (endTime t') (duration t'))
  /\ ((0 <= startTime t)%Q ->
      exists a' t', sidebarSetEnd a v = Some a' /\ App.trimData a' = Some t'
                    /\ trimOrdered (startTime t') (endTime t') (duration t'))
  /\ ((VideoPreview.endTime s <= VideoPreview.duration s)%Q ->
      let s' := local (exec (VideoPreview.handleStartTimeChange (previewOf f) v)
                            (mkEnv a s w)) in
      trimOrdered (VideoPreview.startTime s') (VideoPreview.endTime s')
        (VideoPreview.duration s'))
  /\ ((0 <= VideoPreview.startTime s)%Q ->
      let s' := local (exec (VideoPreview.handleEndTimeChange (previewOf f) v)
                            (mkEnv a s w)) in
      trimOrdered (VideoPreview.startTime s') (VideoPreview.endTime s')
        (VideoPreview.duration s')).
Proof.
  intros Hf Ht H0 Hv Hv'. split; [| split; [| split]].
  - intros He. eexists. eexists.
    split; [exact (sidebarSetStart_result a f t v Hf Ht) |].
    split; [reflexivity |]. now apply start_drag_ordered.
  - intros Hs. eexists. eexists.
    split; [exact (sidebarSetEnd_result a f t v Hf Ht) |].
    split; [reflexivity |]. now apply end_drag_ordered.
  - intros He. unfold previewOf. rewrite previewSetStart_result.
    now apply start_drag_ordered.
  - intros Hs. unfold previewOf. rewrite previewSetEnd_result.
    now apply end_drag_ordered.
Qed.

Lemma in_range_drag_orders_bounds_witness :
  (exists a' t', sidebarSetStart sessionA 10 = Some a' /\ App.trimData a' = Some t'
                 /\ trimOrdered (startTime t') (endTime t') (duration t'))
  /\ (exists a' t', sidebarSetEnd sessionA 10 = Some a' /\ App.trimData a' = Some t'
                    /\ trimOrdered (startTime t') (endTime t') (duration t')).
Proof.
  destruct (in_range_drag_orders_bounds sessionA clipA (mkTrimData 0 10 10)
              previewA [] 10%Q eq_refl eq_refl)
    as (H1 & H2 & _); try discriminate.
  split; [apply H1 | apply H2]; discriminate.
Defined.

(** On every drag the preview hands the owning session exactly the range it
    stores itself.  On a metadata load it hands over start bound [0] but does
    not write its own start bound, so the two ranges agree only if the
    preview's start bound was [0] already. *)
Theorem preview_and_session_ranges (a : App.State) (f : File)
    (s : VideoPreview.State) (w : list Request) (v : Q)
    (video : VideoPreview.HTMLVideoElement) :
  (let e' := exec (VideoPreview.handleStartTimeChange (previewOf f) v)
                  (mkEnv a s w) in
   App.trimData (parent e') = Some (previewRange (local e')))
  /\ (let e' := exec (VideoPreview.handleEndTimeChange (previewOf f) v)
                     (mkEnv a s w) in
      App.trimData (parent e') = Some (previewRange (local e')))
  /\ (let e' := exec (VideoPreview.handleLoadedMetadata (previewOf f) (Some video))
                     (mkEnv a s w) in
      App.trimData (parent e') = Some (previewRange (local e'))
      <-> VideoPreview.startTime s = 0%Q).
Proof.
  split; [| split].
  - unfold previewOf. now rewrite previewSetStart_result.
  - unfold previewOf. now rewrite previewSetEnd_result.
  - unfold previewOf. rewrite handleLoadedMetadata_emits.
    cbn [local parent]. unfold previewRange, App.handleTrimChange.
    cbn [VideoPreview.startTime VideoPreview.endTime VideoPreview.duration
         App.trimData App.setTrimData].
    split.
    + intros H. now injection H.
    + intros ->. reflexivity.
Qed.

(** ** Merge list: removing and reordering *)

Lemma firstn_app_exact {A} (l1 l2 : list A) :
  firstn (List.length l1) (l1 ++ l2) = l1.
Proof. induction l1 as [| x l1 IH]; simpl; [reflexivity | now f_equal]. Qed.

Lemma skipn_app_exact {A} (l1 l2 : list A) :
  skipn (List.length l1) (l1 ++ l2) = l2.
Proof. induction l1 as [| x l1 IH]; simpl; [reflexivity | exact IH]. Qed.

Lemma firstn_app_len {A} (l1 l2 : list A) (n : nat) :
  List.length l1 = n -> firstn n (l1 ++ l2) = l1.
Proof. intros <-. apply firstn_app_exact. Qed.

Lemma skipn_app_len {A} (l1 l2 : list A) (n : nat) :
  List.length l1 = n -> skipn n (l1 ++ l2) = l2.
Proof. intros <-. apply skipn_app_exact. Qed.

Lemma nth_error_decompose {A} (l : list A) (n : nat) (x : A) :
  nth_error l n = Some x -> l = (firstn n l ++ x :: skipn (S n) l)%list.
Proof.
  revert l. induction n as [| n IH]; intros [| y l] H; simpl in *; try discriminate.
  - now injection H as ->.
  - f_equal. now apply IH.
Qed.

Lemma insertAt_length {A} (n : nat) (x : A) (l : list A) :
  List.length (insertAt n x l) = S (List.length l).
Proof.
  unfold insertAt. rewrite List.length_app. simpl.
  rewrite List.length_firstn, List.length_skipn. lia.
Qed.

Lemma insertAt_removeAt_same {A} (l : list A) (n : nat) (x : A) :
  nth_error l n = Some x -> insertAt n x (removeAt n l) = l.
Proof.
  intros Hx.
  assert (Hlt : (n < List.length l)%nat)
    by (apply nth_error_Some; rewrite Hx; discriminate).
  assert (Hn : List.length (firstn n l) = n)
    by (rewrite List.length_firstn; lia).
  unfold insertAt, removeAt.
  rewrite (firstn_app_len _ _ n Hn), (skipn_app_len _ _ n Hn).
  symmetry. now apply nth_error_decompose.
Qed.

Lemma nth_error_insertAt {A} (l : list A) (n : nat) (x : A) :
  (n <= List.length l)%nat -> nth_error (insertAt n x l) n = Some x.
Proof.
  intros Hle. unfold insertAt.
  rewrite nth_error_app2 by (rewrite List.length_firstn; lia).
  rewrite List.length_firstn.
  replace (n - Nat.min n (List.length l))%nat with 0%nat by lia. reflexivity.
Qed.

Lemma removeAt_insertAt {A} (l : list A) (n : nat) (x : A) :
  (n <= List.length l)%nat -> removeAt n (insertAt n x l) = l.
Proof.
  intros Hle.
  assert (Hn : List.length (firstn n l) = n)
    by (rewrite List.length_firstn; lia).
  unfold removeAt, insertAt.
  rewrite (firstn_app_len _ _ n Hn).
  replace (firstn n l ++ x :: skipn n l)%list
    with ((firstn n l ++ [x]) ++ skipn n l)%list
    by (now rewrite <- app_assoc).
  rewrite (skipn_app_len _ _ (S n))
    by (rewrite List.length_app; simpl; lia).
  apply firstn_skipn.
Qed.

Lemma filterIndex_outside {A} (l : list A) (k index : Z) :
  index < k \/ k + Z.of_nat (List.length l) <= index ->
  filterIndex (fun i => negb (i =? index)) k l = l.
Proof.
  revert k. induction l as [| x l IH]; intros k H; simpl; [reflexivity |].
  destruct (Z.eqb_spec k index) as [-> | _].
  - simpl in H. lia.
  - simpl. f_equal. apply IH. simpl List.length in H. lia.
Qed.

Lemma filterIndex_inside {A} (l : list A) (k : Z) (n : nat) :
  (n < List.length l)%nat ->
  filterIndex (fun i => negb (i =? k + Z.of_nat n)) k l = removeAt n l.
Proof.
  revert k n. induction l as [| x l IH]; intros k n H; [simpl in H; lia |].
  cbn [filterIndex]. destruct n as [| n].
  - replace (k + Z.of_nat 0) with k by lia. rewrite Z.eqb_refl. cbn [negb].
    unfold removeAt. cbn [firstn skipn app].
    apply filterIndex_outside. lia.
  - destruct (Z.eqb_spec k (k + Z.of_nat (S n))) as [E | _]; [lia |].
    cbn [negb].
    replace (k + Z.of_nat (S n)) with ((k + 1) + Z.of_nat n) by lia.
    rewrite IH by (simpl in H; lia). reflexivity.
Qed.

(** [removeVideo] at an index that addresses an entry stores the list
    without that entry: one entry fewer, the others in their order; the
    error and the rest of the component are untouched and nothing is sent. *)
Theorem removeVideo_drops_entry {P : Type} (p : P) (m : VideoMerger.State)
    (w : list Request) (index : nat) :
  (index < List.length (VideoMerger.videos m))%nat ->
  let e' := exec (VideoMerger.removeVideo (Z.of_nat index)) (mkEnv p m w) in
  e' = mkEnv p
         (VideoMerger.mkState (removeAt index (VideoMerger.videos m))
            (VideoMerger.dragActive m) (VideoMerger.error m))
         w
  /\ List.length (VideoMerger.videos (local e'))
     = pred (List.length (VideoMerger.videos m))
  /\ forall j : nat,
       nth_error (VideoMerger.videos (local e')) j
       = nth_error (VideoMerger.videos m) (if (j <? index)%nat then j else S j).
Proof.
  intros Hlt e'.
  assert (He : e' = mkEnv p
         (VideoMerger.mkState (removeAt index (VideoMerger.videos m))
            (VideoMerger.dragActive m) (VideoMerger.error m)) w).
  { subst e'. unfold VideoMerger.removeVideo, VideoMerger.setVideos, exec, setState.
    cbn [snd local parent wire VideoMerger.videos VideoMerger.dragActive
         VideoMerger.error].
    pose proof (filterIndex_inside (VideoMerger.videos m) 0 index Hlt) as Hfi.
    cbn [Z.add] in Hfi. now rewrite Hfi. }
  rewrite He. cbn [local VideoMerger.videos].
  split; [reflexivity |]. split; [now apply removeAt_length |].
  intros j. unfold removeAt.
  assert (Hn : List.length (firstn index (VideoMerger.videos m)) = index)
    by (rewrite List.length_firstn; lia).
  destruct (Nat.ltb_spec j index) as [Hj | Hj].
  - rewrite nth_error_app1 by lia. rewrite nth_error_firstn.
    now destruct (Nat.ltb_spec j index); [| lia].
  - rewrite nth_error_app2 by lia. rewrite Hn, nth_error_skipn.
    f_equal. lia.
Qed.

Lemma removeVideo_drops_entry_witness :
  exec (VideoMerger.removeVideo 1) (mkEnv tt mergerABCD [])
  = mkEnv tt
      (VideoMerger.mkState [Some clipA; Some clipC; Some clipD] false "") [].
Proof.
  refine (proj1 (removeVideo_drops_entry tt mergerABCD [] 1 _)).
  simpl. lia.
Defined.

(** [removeVideo] at an index that addresses nothing (negative, or at or
    beyond the length) changes nothing. *)
Theorem removeVideo_out_of_range_is_noop {P : Type} (p : P)
    (m : VideoMerger.State) (w : list Request) (index : Z) :
  index < 0 \/ Z.of_nat (List.length (VideoMerger.videos m)) <= index ->
  exec (VideoMerger.removeVideo index) (mkEnv p m w) = mkEnv p m w.
Proof.
  intros H. unfold VideoMerger.removeVideo, VideoMerger.setVideos, exec, setState.
  cbn [snd local parent wire].
  rewrite filterIndex_outside by lia. now destruct m.
Qed.

Lemma removeVideo_out_of_range_is_noop_witness :
  exec (VideoMerger.removeVideo 4) (mkEnv tt mergerABCD []) = mkEnv tt mergerABCD []
  /\ exec (VideoMerger.removeVideo (-1)) (mkEnv tt mergerABCD [])
     = mkEnv tt mergerABCD [].
Proof.
  split.
  - apply (removeVideo_out_of_range_is_noop tt mergerABCD [] 4). right. simpl. lia.
  - apply (removeVideo_out_of_range_is_noop tt mergerABCD [] (-1)). left. lia.
Defined.

Lemma insertAt_Permutation {A} (n : nat) (x : A) (l : list A) :
  Permutation (insertAt n x l) (x :: l).
Proof.
  unfold insertAt. symmetry.
  rewrite <- (firstn_skipn n l) at 1. apply Permutation_middle.
Qed.

Lemma removeAt_Permutation {A} (l : list A) (n : nat) (x : A) :
  nth_error l n = Some x -> Permutation (x :: removeAt n l) l.
Proof.
  intros Hx. rewrite (nth_error_decompose l n x Hx) at 2.
  unfold removeAt. apply Permutation_middle.
Qed.

(** For indices that address entries, [moveVideo] only reorders: the stored
    list is a permutation of the old one, of the same length. *)
Theorem moveVideo_permutes {P : Type} (p : P) (m : VideoMerger.State)
    (w : list Request) (fromIndex toIndex : nat) :
  (fromIndex < List.length (VideoMerger.videos m))%nat ->
  (toIndex < List.length (VideoMerger.videos m))%nat ->
  let vs' := VideoMerger.videos
               (local (exec (VideoMerger.moveVideo (Z.of_nat fromIndex)
                               (Z.of_nat toIndex))
                            (mkEnv p m w))) in
  Permutation vs' (VideoMerger.videos m)
  /\ List.length vs' = List.length (VideoMerger.videos m).
Proof.
  intros Hfrom Hto vs'.
  destruct (nth_error (VideoMerger.videos m) fromIndex) as [x |] eqn:Hx;
    [| apply nth_error_None in Hx; lia].
  subst vs'. rewrite (moveVideo_in_range p m w fromIndex toIndex x Hx Hto).
  cbn [local VideoMerger.videos].
  assert (Hperm : Permutation
            (insertAt toIndex x (removeAt fromIndex (VideoMerger.videos m)))
            (VideoMerger.videos m)).
  { etransitivity; [apply insertAt_Permutation |].
    now apply removeAt_Permutation. }
  split; [exact Hperm | now apply Permutation_length].
Qed.

Lemma moveVideo_permutes_witness :
  Permutation
    (VideoMerger.videos
       (local (exec (VideoMerger.moveVideo 3 1) (mkEnv tt mergerABCD []))))
    [Some clipA; Some clipB; Some clipC; Some clipD].
Proof.
  refine (proj1 (moveVideo_permutes tt mergerABCD [] 3 1 _ _)); simpl; lia.
Defined.

(** Moving an entry from [fromIndex] to [toIndex] and then back from
    [toIndex] to [fromIndex] restores the component's state. *)
Theorem moveVideo_there_and_back {P : Type} (p : P) (m : VideoMerger.State)
    (w : list Request) (fromIndex toIndex : nat) :
  (fromIndex < List.length (VideoMerger.videos m))%nat ->
  (toIndex < List.length (VideoMerger.videos m))%nat ->
  exec (VideoMerger.moveVideo (Z.of_nat toIndex) (Z.of_nat fromIndex))
       (exec (VideoMerger.moveVideo (Z.of_nat fromIndex) (Z.of_nat toIndex))
             (mkEnv p m w))
  = mkEnv p m w.
Proof.
  intros Hfrom Hto.
  destruct (nth_error (VideoMerger.videos m) fromIndex) as [x |] eqn:Hx;
    [| apply nth_error_None in Hx; lia].
  rewrite (moveVideo_in_range p m w fromIndex toIndex x Hx Hto).
  set (r := removeAt fromIndex (VideoMerger.videos m)).
  assert (Hr : List.length r = pred (List.length (VideoMerger.videos m)))
    by (now apply removeAt_length).
  rewrite (moveVideo_in_range p _ w toIndex fromIndex x).
  - cbn [VideoMerger.videos VideoMerger.dragActive VideoMerger.error].
    rewrite removeAt_insertAt by lia. unfold r.
    rewrite (insertAt_removeAt_same _ _ _ Hx). now destruct m.
  - cbn [VideoMerger.videos]. apply nth_error_insertAt. lia.
  - cbn [VideoMerger.videos]. rewrite insertAt_length. lia.
Qed.

Lemma moveVideo_there_and_back_witness :
  exec (VideoMerger.moveVideo 0 2)
       (exec (VideoMerger.moveVideo 2 0) (mkEnv tt mergerABCD []))
  = mkEnv tt mergerABCD [].
Proof.
  apply (moveVideo_there_and_back tt mergerABCD [] 2 0); simpl; lia.
Defined.

(** When [fromIndex] is at or beyond the length, the first [splice] removes
    nothing, [movedVideo] is [undefined], and the second [splice] inserts
    it: the list grows by one slot holding [undefined] at [toIndex]. *)
Theorem moveVideo_missing_source_inserts_undefined {P : Type} (p : P)
    (m : VideoMerger.State) (w : list Request) (fromIndex toIndex : nat) :
  (List.length (VideoMerger.videos m) <= fromIndex)%nat ->
  (toIndex <= List.length (VideoMerger.videos m))%nat ->
  let vs' := VideoMerger.videos
               (local (exec (VideoMerger.moveVideo (Z.of_nat fromIndex)
                               (Z.of_nat toIndex))
                            (mkEnv p m w))) in
  vs' = insertAt toIndex None (VideoMerger.videos m)
  /\ nth_error vs' toIndex = Some None
  /\ List.length vs' = S (List.length (VideoMerger.videos m)).
Proof.
  intros Hfrom Hto vs'.
  assert (Hs : splice (VideoMerger.videos m) (Z.of_nat fromIndex) 1 []
               = ([], VideoMerger.videos m)).
  { unfold splice.
    destruct (Z.ltb_spec (Z.of_nat fromIndex) 0) as [Hneg | _]; [lia |].
    replace (Z.min (Z.of_nat fromIndex)
               (Z.of_nat (List.length (VideoMerger.videos m))))
      with (Z.of_nat (List.length (VideoMerger.videos m))) by lia.
    rewrite Z.sub_diag. replace (Z.min (Z.max 1 0) 0) with 0 by lia.
    rewrite Nat2Z.id. change (Z.to_nat 0) with 0%nat.
    rewrite Nat.add_0_r, firstn_all, skipn_all. cbn [firstn app].
    now rewrite app_nil_r. }
  assert (Hv : vs' = insertAt toIndex None (VideoMerger.videos m)).
  { subst vs'.
    unfold VideoMerger.moveVideo, VideoMerger.getState, exec, bind.
    cbn [local]. rewrite Hs. cbn [hd].
    now rewrite splice_insert_one by lia. }
  rewrite Hv. split; [reflexivity |]. split.
  - now apply nth_error_insertAt.
  - apply insertAt_length.
Qed.

Lemma moveVideo_missing_source_inserts_undefined_witness :
  VideoMerger.videos
    (local (exec (VideoMerger.moveVideo 4 1) (mkEnv tt mergerABCD [])))
  = [Some clipA; None; Some clipB; Some clipC; Some clipD].
Proof.
  refine (proj1 (moveVideo_missing_source_inserts_undefined tt mergerABCD [] 4 1 _ _));
    simpl; lia.
Defined.

Lemma moveVideo_down_swaps {P : Type} (p : P) (w : list Request)
    (pre post : list VideoMerger.Cell) (x y : VideoMerger.Cell) (da : bool)
    (err : string) :
  let i := List.length pre in
  VideoMerger.videos
    (local (exec (VideoMerger.moveVideo (Z.of_nat i) (Z.of_nat i + 1))
              (mkEnv p (VideoMerger.mkState (pre ++ x :: y :: post) da err) w)))
  = (pre ++ y :: x :: post)%list.
Proof.
  intros i.
  assert (Hx : nth_error (pre ++ x :: y :: post) i = Some x).
  { unfold i. rewrite nth_error_app2 by lia. now rewrite Nat.sub_diag. }
  replace (Z.of_nat i + 1) with (Z.of_nat (S i)) by lia.
  rewrite (moveVideo_in_range p
             (VideoMerger.mkState (pre ++ x :: y :: post) da err) w
             i (S i) x Hx)
    by (simpl; rewrite List.length_app; simpl; unfold i; lia).
  cbn [local VideoMerger.videos]. unfold i.
  replace (List.length pre) with (List.length pre + 0)%nat at 2 by lia.
  rewrite removeAt_app.
  replace (S (List.length pre)) with (List.length pre + 1)%nat by lia.
  rewrite insertAt_app. reflexivity.
Qed.

(** The move buttons of a row.  Move-up on the first row and move-down on
    the last row do nothing; on any other row they swap the entry with its
    neighbour above, resp. below, and leave the rest of the list as it is. *)
Theorem move_buttons_swap_neighbours {P : Type} (p : P) (w : list Request)
    (pre post : list VideoMerger.Cell) (x y : VideoMerger.Cell) (da : bool)
    (err : string) :
  let m := VideoMerger.mkState (pre ++ x :: y :: post) da err in
  let i := Z.of_nat (List.length pre) in
  VideoMerger.videos (local (exec (moveUpClick (i + 1)) (mkEnv p m w)))
    = (pre ++ y :: x :: post)%list
  /\ VideoMerger.videos (local (exec (moveDownClick i) (mkEnv p m w)))
     = (pre ++ y :: x :: post)%list
  /\ exec (moveUpClick 0) (mkEnv p m w) = mkEnv p m w
  /\ exec (moveDownClick (Z.of_nat (List.length (pre ++ x :: y :: post)) - 1))
          (mkEnv p m w)
     = mkEnv p m w.
Proof.
  intros m i. split; [| split; [| split]].
  - unfold moveUpClick.
    destruct (Z.ltb_spec 0 (i + 1)) as [_ | H]; [| unfold i in H; lia].
    replace (i + 1) with (Z.of_nat (S (List.length pre))) by (unfold i; lia).
    apply moveVideo_up_swaps.
  - unfold moveDownClick, VideoMerger.getState, exec, bind. cbn [local].
    unfold m at 1. cbn [VideoMerger.videos].
    destruct (Z.ltb_spec i (Z.of_nat (List.length (pre ++ x :: y :: post)) - 1))
      as [_ | H].
    + apply moveVideo_down_swaps.
    + rewrite List.length_app in H. simpl in H. unfold i in H. lia.
  - reflexivity.
  - unfold moveDownClick, VideoMerger.getState, exec, bind. cbn [local].
    unfold m at 1. cbn [VideoMerger.videos].
    now rewrite Z.ltb_irrefl.
Qed.

(** ** Merge list: adding files *)

(** A batch with at least one acceptable file: exactly the acceptable files
    of the batch are appended, in batch order, after the entries already in
    the list, and the error is cleared, whatever it was and whatever files
    of the batch were rejected; nothing else changes and nothing is sent. *)
Theorem batch_appends_acceptable_files {P : Type} (p : P)
    (m : VideoMerger.State) (w : list Request) (files : list File) (f0 : File) :
  In f0 files -> acceptable f0 = true ->
  exists added : list File,
    exec (VideoMerger.handleFileSelect files) (mkEnv p m w)
    = mkEnv p
        (VideoMerger.mkState (VideoMerger.videos m ++ map Some added)
           (VideoMerger.dragActive m) "")
        w
    /\ added = filter acceptable files
    /\ (forall f, In f added <-> In f files /\ acceptable f = true).
Proof.
  intros Hin Hok. exists (filter acceptable files).
  split; [| split; [reflexivity | intros f; apply filter_In]].
  apply handleFileSelect_some_accepted.
  intros Hnil.
  assert (Hf0 : In f0 (filter acceptable files)) by (apply filter_In; now split).
  rewrite Hnil in Hf0. exact Hf0.
Qed.

Lemma batch_appends_acceptable_files_witness :
  exists added : list File,
    exec (VideoMerger.handleFileSelect [clipText; clipA; clipB; clipC])
         (mkEnv tt (VideoMerger.mkState [Some clipD] true "old error") [])
    = mkEnv tt
        (VideoMerger.mkState ([Some clipD] ++ map Some added) true "") []
    /\ added = [clipA; clipC].
Proof.
  destruct (batch_appends_acceptable_files tt
              (VideoMerger.mkState [Some clipD] true "old error") []
              [clipText; clipA; clipB; clipC] clipA)
    as (added & He & Ha & _); [right; left; reflexivity | reflexivity |].
  exists added. split; [exact He | exact Ha].
Defined.

(** The error left by the loop over a batch of which no file is acceptable
    is the message of the batch's last file. *)
Lemma validate_all_rejected {P : Type} (pre : list File) (last : File)
    (acc : list File) (e : Env P VideoMerger.State) :
  filter acceptable (pre ++ [last]) = [] ->
  VideoMerger.error (local (snd (VideoMerger.validate (pre ++ [last]) acc e)))
  = rejectionMessage last.
Proof.
  revert e. induction pre as [| file pre IH]; intros e Hnone.
  - cbn [app] in *. cbn [filter] in Hnone.
    destruct (acceptable last) eqn:Hl; [discriminate |].
    rewrite validate_cons. unfold rejectionMessage.
    unfold acceptable in Hl. rewrite Z.gtb_ltb, Z.ltb_antisym.
    destruct (includes allowedTypes (type last)); cbn [negb andb] in *.
    + rewrite Hl. reflexivity.
    + reflexivity.
  - cbn [app] in *. cbn [filter] in Hnone.
    destruct (acceptable file) eqn:Hf; [discriminate |].
    rewrite validate_cons.
    unfold acceptable in Hf. rewrite Z.gtb_ltb, Z.ltb_antisym.
    destruct (includes allowedTypes (type file)); cbn [negb andb] in *.
    + rewrite Hf. cbn [negb]. unfold bind, VideoMerger.setError, setState.
      now apply IH.
    + unfold bind, VideoMerger.setError, setState. now apply IH.
Qed.

(** When no file of a non-empty batch is acceptable, the list is unchanged
    and the error is the message for the last file of the batch, naming it
    and its reason (type before size); the messages of earlier files are
    overwritten.  An empty batch changes nothing at all. *)
Theorem handleFileSelect_none_accepted {P : Type} (p : P)
    (m : VideoMerger.State) (w : list Request) (pre : list File) (last : File) :
  filter acceptable (pre ++ [last]) = [] ->
  exec (VideoMerger.handleFileSelect (pre ++ [last])) (mkEnv p m w)
  = mkEnv p
      (VideoMerger.mkState (VideoMerger.videos m) (VideoMerger.dragActive m)
         (rejectionMessage last))
      w
  /\ exec (VideoMerger.handleFileSelect []) (mkEnv p m w) = mkEnv p m w.
Proof.
  intros Hnone. split; [| reflexivity].
  unfold VideoMerger.handleFileSelect, exec, bind.
  pose proof (validate_all_rejected pre last [] (mkEnv p m w) Hnone) as Herr.
  destruct (validate_spec (pre ++ [last]) [] (mkEnv p m w))
    as (H1 & H2 & H3 & H4 & H5).
  destruct (VideoMerger.validate (pre ++ [last]) [] (mkEnv p m w)) as [valid e1].
  cbn [fst snd] in *. rewrite Hnone in H1. subst valid. cbn [List.length Nat.ltb Nat.leb].
  cbn [snd]. destruct e1 as [p1 [vs1 da1 err1] w1].
  cbn [parent local wire VideoMerger.videos VideoMerger.dragActive
       VideoMerger.error] in *.
  now subst.
Qed.

Lemma handleFileSelect_none_accepted_witness :
  exec (VideoMerger.handleFileSelect [clipB; clipText])
       (mkEnv tt (VideoMerger.mkState [Some clipA] false "") [])
  = mkEnv tt
      (VideoMerger.mkState [Some clipA] false "notes.txt is not a valid video file")
      [].
Proof.
  exact (proj1 (handleFileSelect_none_accepted tt
                  (VideoMerger.mkState [Some clipA] false "") []
                  [clipB] clipText eq_refl)).
Defined.

(** ** Merge dispatch *)

Lemma mapIndex_length {A B} (f : nat -> A -> B) (i : nat) (l : list A) :
  List.length (mapIndex f i l) = List.length l.
Proof.
  revert i. induction l as [| x l IH]; intros i; simpl; [reflexivity |].
  now rewrite IH.
Qed.

Lemma mapIndex_nth_error {A B} (f : nat -> A -> B) (i n : nat) (l : list A) :
  nth_error (mapIndex f i l) n = option_map (f (i + n)%nat) (nth_error l n).
Proof.
  revert i n. induction l as [| x l IH]; intros i [| n]; simpl; try reflexivity.
  - now rewrite Nat.add_0_r.
  - rewrite IH. now rewrite Nat.add_succ_comm.
Qed.

(** The form of a merge request has one part per list entry, in list order,
    the entry at position [i] under the name [video] followed by [i] in
    decimal, and after them the field [videoCount] holding the number of
    entries. *)
Theorem mergeForm_enumerates_list (vs : list VideoMerger.Cell) :
  List.length (VideoMerger.mergeForm vs) = S (List.length vs)
  /\ (forall (i : nat) (c : VideoMerger.Cell),
        nth_error vs i = Some c ->
        nth_error (VideoMerger.mergeForm vs) i = Some (VideoMerger.mergePart i c))
  /\ nth_error (VideoMerger.mergeForm vs) (List.length vs)
     = Some ("videoCount", TextPart (decimal (List.length vs))).
Proof.
  unfold VideoMerger.mergeForm. split; [| split].
  - rewrite List.length_app, mapIndex_length. simpl. lia.
  - intros i c Hc.
    assert (Hlt : (i < List.length vs)%nat)
      by (apply nth_error_Some; rewrite Hc; discriminate).
    rewrite nth_error_app1 by (now rewrite mapIndex_length).
    now rewrite mapIndex_nth_error, Hc.
  - rewrite nth_error_app2 by (rewrite mapIndex_length; lia).
    now rewrite mapIndex_length, Nat.sub_diag.
Qed.

(** A merge dispatch with at least two entries whose call resolves with a
    truthy [success]: one request, built from the list, was sent; the
    session holds the result with the service's [file_id] and the download
    address derived from it; [isMerging] is [false]; the error is empty and
    the list is unchanged. *)
Theorem merge_success_stores_result (a : App.State) (m : VideoMerger.State)
    (w : list Request) (server : Request -> AxiosOutcome) (data : ResponseData) :
  (2 <= List.length (VideoMerger.videos m))%nat ->
  server (mergeRequest (VideoMerger.videos m)) = Resolved data ->
  success data = true ->
  let e' := exec (VideoMerger.handleMerge (Render.mergerProps a) server)
                 (mkEnv a m w) in
  App.convertedVideo (parent e') = Some (resultOf data)
  /\ App.isMerging (parent e') = false
  /\ local e' = VideoMerger.mkState (VideoMerger.videos m)
                  (VideoMerger.dragActive m) ""
  /\ wire e' = (w ++ [mergeRequest (VideoMerger.videos m)])%list.
Proof.
  intros Hlen Hs Hd. unfold VideoMerger.handleMerge, VideoMerger.getState.
  run_handler.
  destruct (Nat.ltb_spec (List.length (VideoMerger.videos m)) 2) as [Hlt | _];
    [lia |].
  run_handler.
  unfold mergeRequest, mergeUrl in Hs. rewrite Hs. simpl. rewrite Hd.
  simpl. repeat split.
Qed.

Lemma merge_success_stores_result_witness :
  let e' := exec (VideoMerger.handleMerge (Render.mergerProps App.init)
                    (fun _ => Resolved (mkData true "m1")))
                 (mkEnv App.init mergerAC []) in
  App.convertedVideo (parent e')
    = Some (mkResult "m1" "http://localhost:5000/download/m1")
  /\ App.isMerging (parent e') = false.
Proof.
  destruct (merge_success_stores_result App.init mergerAC []
              (fun _ => Resolved (mkData true "m1")) (mkData true "m1"))
    as (H1 & H2 & _); [simpl; lia | reflexivity | reflexivity |].
  exact (conj H1 H2).
Defined.

(** A merge dispatch with at least two entries whose call rejects: the error
    is the service's payload or, without one, 'Merge failed. Please try
    again.'; the list is unchanged and no result is stored; [isMerging] is
    [true] afterwards, since the [catch] block calls [onMergeStart]. *)
Theorem merge_failure_leaves_busy (a : App.State) (m : VideoMerger.State)
    (w : list Request) (server : Request -> AxiosOutcome)
    (payload : option string) :
  (2 <= List.length (VideoMerger.videos m))%nat ->
  server (mergeRequest (VideoMerger.videos m)) = Rejected payload ->
  let e' := exec (VideoMerger.handleMerge (Render.mergerProps a) server)
                 (mkEnv a m w) in
  local e' = VideoMerger.mkState (VideoMerger.videos m)
               (VideoMerger.dragActive m)
               (or_fallback payload "Merge failed. Please try again.")
  /\ App.isMerging (parent e') = true
  /\ App.convertedVideo (parent e') = None
  /\ wire e' = (w ++ [mergeRequest (VideoMerger.videos m)])%list.
Proof.
  intros Hlen Hs. unfold VideoMerger.handleMerge, VideoMerger.getState.
  run_handler.
  destruct (Nat.ltb_spec (List.length (VideoMerger.videos m)) 2) as [Hlt | _];
    [lia |].
  run_handler.
  unfold mergeRequest, mergeUrl in Hs. rewrite Hs. simpl. repeat split.
Qed.

Lemma merge_failure_leaves_busy_witness :
  let e' := exec (VideoMerger.handleMerge (Render.mergerProps App.init)
                    (fun _ => Rejected None))
                 (mkEnv App.init mergerAC []) in
  VideoMerger.error (local e') = "Merge failed. Please try again."
  /\ App.isMerging (parent e') = true.
Proof.
  destruct (merge_failure_leaves_busy App.init mergerAC []
              (fun _ => Rejected None) None)
    as (H1 & H2 & _); [simpl; lia | reflexivity |].
  exact (conj (f_equal VideoMerger.error H1) H2).
Defined.

(** ** Single-clip mode: selecting and dispatching *)

(** [VideoUploader.handleFileSelect] takes a file exactly when its type is
    on the allow-list and its size is at most the ceiling (a file of exactly
    100 MiB passes).  A file it takes becomes the selected clip, the previous
    result and trim range are dropped and the error is cleared; the busy flag
    is not touched.  A file it rejects leaves the session as it was and sets
    the error: the type message when the type is not allowed, otherwise the
    size message. *)
Theorem uploader_takes_acceptable_file (a : App.State)
    (u : VideoUploader.State) (w : list Request) (f : File) :
  let e' := exec (VideoUploader.handleFileSelect (Render.uploaderProps a) f)
                 (mkEnv a u w) in
  (acceptable f = true ->
   App.selectedFile (parent e') = Some f
   /\ App.convertedVideo (parent e') = None
   /\ App.trimData (parent e') = None
   /\ App.isConverting (parent e') = App.isConverting a
   /\ VideoUploader.error (local e') = ""
   /\ wire e' = w)
  /\ (acceptable f = false ->
      parent e' = a /\ wire e' = w
      /\ VideoUploader.error (local e')
         = if includes allowedTypes (type f)
           then "File size must be less than 100MB"
           else "Please select a valid video file (MP4, AVI, MOV, WebM)").
Proof.
  unfold VideoUploader.handleFileSelect, acceptable.
  rewrite Z.gtb_ltb, Z.ltb_antisym.
  destruct (includes allowedTypes (type f)); cbn [negb andb];
    [destruct (size f <=? sizeLimit); cbn [negb] |];
    (split; intros H; [try discriminate H | try discriminate H]);
    repeat split.
Qed.

Lemma uploader_takes_acceptable_file_witness :
  App.selectedFile
    (parent (exec (VideoUploader.handleFileSelect (Render.uploaderProps sessionA)
                     clipAtLimit)
                  (mkEnv sessionA VideoUploader.init []))) = Some clipAtLimit
  /\ VideoUploader.error
       (local (exec (VideoUploader.handleFileSelect (Render.uploaderProps sessionA)
                       clipB)
                    (mkEnv sessionA VideoUploader.init [])))
     = "File size must be less than 100MB".
Proof.
  split.
  - exact (proj1 (proj1 (uploader_takes_acceptable_file sessionA
                           VideoUploader.init [] clipAtLimit) eq_refl)).
  - exact (proj2 (proj2 (proj2 (uploader_takes_acceptable_file sessionA
                                  VideoUploader.init [] clipB) eq_refl))).
Defined.



(** Without a selected clip [handleConvert] returns at once: nothing is
    sent and neither the session nor the uploader changes. *)
Theorem convert_without_clip_is_noop (a : App.State)
    (u : VideoUploader.State) (w : list Request)
    (server : Request -> AxiosOutcome) :
  App.selectedFile a = None ->
  exec (VideoUploader.handleConvert (Render.uploaderProps a) server) (mkEnv a u w)
  = mkEnv a u w.
Proof.
  intros Hf. unfold VideoUploader.handleConvert. simpl. now rewrite Hf.
Qed.

Lemma convert_without_clip_is_noop_witness :
  exec (VideoUploader.handleConvert (Render.uploaderProps App.init)
          (fun _ => Resolved (mkData true "id")))
       (mkEnv App.init VideoUploader.init [])
  = mkEnv App.init VideoUploader.init [].
Proof.
  exact (convert_without_clip_is_noop App.init VideoUploader.init []
           (fun _ => Resolved (mkData true "id")) eq_refl).
Defined.



(** With a trim range present, a trim-only request and a convert request
    for the same session carry the same form (the clip and the two bounds);
    they differ in the address only. *)
Theorem trim_only_same_form_as_convert (a : App.State) (f : File) (t : TrimData) :
  App.trimData a = Some t ->
  body (trimRequest f t) = body (convertRequest a f)
  /\ url (trimRequest f t) <> url (convertRequest a f).
Proof.
  intros Ht. unfold trimRequest, convertRequest, VideoUploader.convertForm.
  cbn [body url Render.uploaderProps VideoUploader.trimData]. rewrite Ht.
  split; [reflexivity | discriminate].
Qed.

Lemma trim_only_same_form_as_convert_witness :
  body (trimRequest clipA (mkTrimData 0 4 10))
  = body (convertRequest sessionTrimmed clipA).
Proof.
  exact (proj1 (trim_only_same_form_as_convert sessionTrimmed clipA
                  (mkTrimData 0 4 10) eq_refl)).
Defined.

Lemma or_fallback_nonempty (payload : option string) (fallback : string) :
  fallback <> "" -> or_fallback payload fallback <> "".
Proof.
  intros Hfb. unfold or_fallback. destruct payload as [s |]; [| exact Hfb].
  destruct (String.eqb_spec s ""); assumption.
Qed.

Lemma or_fallback_verbatim (s fallback : string) :
  s <> "" -> or_fallback (Some s) fallback = s.
Proof.
  intros Hs. unfold or_fallback.
  destruct (String.eqb_spec s ""); [contradiction | reflexivity].
Qed.

(** Whenever the call of a convert, trim-only or merge dispatch rejects, the
    component's error afterwards is not empty, so the error box is shown; and
    if the rejection carries a non-empty payload, the error is that payload,
    verbatim. *)
Theorem rejection_always_shows_message (a : App.State)
    (u : VideoUploader.State) (m : VideoMerger.State) (w : list Request)
    (server : Request -> AxiosOutcome) (payload : option string) :
  (forall rq, server rq = Rejected payload) ->
  (forall f, App.selectedFile a = Some f ->
     let err := VideoUploader.error
                  (local (exec (VideoUploader.handleConvert
                                  (Render.uploaderProps a) server)
                               (mkEnv a u w))) in
     err <> "" /\ (forall s, payload = Some s -> s <> "" -> err = s))
  /\ (forall f t, App.selectedFile a = Some f -> App.trimData a = Some t ->
        let err := VideoUploader.error
                     (local (exec (VideoUploader.handleTrimOnly
                                     (Render.uploaderProps a) server)
                                  (mkEnv a u w))) in
        err <> "" /\ (forall s, payload = Some s -> s <> "" -> err = s))
  /\ ((2 <= List.length (VideoMerger.videos m))%nat ->
      let err := VideoMerger.error
                   (local (exec (VideoMerger.handleMerge
                                   (Render.mergerProps a) server)
                                (mkEnv a m w))) in
      err <> "" /\ (forall s, payload = Some s -> s <> "" -> err = s)).
Proof.
  intros Hs. split; [| split].
  - intros f Hf. unfold VideoUploader.handleConvert. simpl. rewrite Hf.
    run_handler. rewrite Hs. simpl. split.
    + now apply or_fallback_nonempty.
    + intros s -> Hne. now apply or_fallback_verbatim.
  - intros f t Hf Ht. unfold VideoUploader.handleTrimOnly. simpl.
    rewrite Hf, Ht. run_handler. rewrite Hs. simpl. split.
    + now apply or_fallback_nonempty.
    + intros s -> Hne. now apply or_fallback_verbatim.
  - intros Hlen. unfold VideoMerger.handleMerge, VideoMerger.getState.
    run_handler.
    destruct (Nat.ltb_spec (List.length (VideoMerger.videos m)) 2) as [Hlt | _];
      [lia |].
    run_handler. rewrite Hs. simpl. split.
    + now apply or_fallback_nonempty.
    + intros s -> Hne. now apply or_fallback_verbatim.
Qed.

Lemma rejection_always_shows_message_witness :
  VideoUploader.error
    (local (exec (VideoUploader.handleConvert (Render.uploaderProps sessionA)
                    (fun _ => Rejected (Some "disk full")))
                 (mkEnv sessionA VideoUploader.init [])))
  = "disk full".
Proof.
  destruct (rejection_always_shows_message sessionA VideoUploader.init mergerAC []
              (fun _ => Rejected (Some "disk full")) (Some "disk full")
              (fun _ => eq_refl)) as (Hc & _).
  refine (proj2 (Hc clipA eq_refl) "disk full" eq_refl _). discriminate.
Defined.



(** A dispatch in one mode leaves the other mode's session state alone:
    convert and trim-only never change [isMerging] or the mode; merge never
    changes the selected clip, the trim range, [isConverting] or the mode.
    (The stored result is shared by both modes.) *)
Theorem dispatch_keeps_other_mode (a : App.State) (u : VideoUploader.State)
    (m : VideoMerger.State) (w : list Request)
    (server : Request -> AxiosOutcome) :
  (let a' := parent (exec (VideoUploader.handleConvert (Render.uploaderProps a) server)
                          (mkEnv a u w)) in
   App.isMerging a' = App.isMerging a /\ App.currentMode a' = App.currentMode a)
  /\ (let a' := parent (exec (VideoUploader.handleTrimOnly (Render.uploaderProps a) server)
                             (mkEnv a u w)) in
      App.isMerging a' = App.isMerging a /\ App.currentMode a' = App.currentMode a)
  /\ (let a' := parent (exec (VideoMerger.handleMerge (Render.mergerProps a) server)
                             (mkEnv a m w)) in
      App.selectedFile a' = App.selectedFile a
      /\ App.trimData a' = App.trimData a
      /\ App.isConverting a' = App.isConverting a
      /\ App.currentMode a' = App.currentMode a).
Proof.
  split; [| split].
  - unfold VideoUploader.handleConvert. simpl.
    destruct (App.selectedFile a) as [f |]; [| now split].
    run_handler.
    destruct (server _) as [d | pl]; simpl; [destruct (success d) |];
      now split.
  - unfold VideoUploader.handleTrimOnly. simpl.
    destruct (App.selectedFile a) as [f |]; [| now split].
    destruct (App.trimData a) as [t |]; [| now split].
    run_handler.
    destruct (server _) as [d | pl]; simpl; [destruct (success d) |];
      now split.
  - unfold VideoMerger.handleMerge, VideoMerger.getState. run_handler.
    destruct (List.length (VideoMerger.videos m) <? 2)%nat; [now repeat split |].
    run_handler.
    destruct (server _) as [d | pl]; simpl; [destruct (success d) |];
      now repeat split.
Qed.

(** ** The client across events *)

(** Each handler that awaits a call is its part before the [await] followed
    by its continuation on the outcome. *)
Lemma handlers_split (a : App.State) (server : Request -> AxiosOutcome) :
  (forall u w f, App.selectedFile a = Some f ->
     let d := VideoUploader.handleConvert_dispatch (Render.uploaderProps a) server f
                (mkEnv a u w) in
     exec (VideoUploader.handleConvert (Render.uploaderProps a) server) (mkEnv a u w)
     = exec (VideoUploader.handleConvert_settled (Render.uploaderProps a) (fst d))
            (snd d))
  /\ (forall u w f t, App.selectedFile a = Some f -> App.trimData a = Some t ->
        let d := VideoUploader.handleTrimOnly_dispatch (Render.uploaderProps a) server
                   f t (mkEnv a u w) in
        exec (VideoUploader.handleTrimOnly (Render.uploaderProps a) server)
             (mkEnv a u w)
        = exec (VideoUploader.handleTrimOnly_settled (Render.uploaderProps a) (fst d))
               (snd d))
  /\ (forall m w, (2 <= List.length (VideoMerger.videos m))%nat ->
        let d := VideoMerger.handleMerge_dispatch (Render.mergerProps a) server
                   (VideoMerger.videos m) (mkEnv a m w) in
        exec (VideoMerger.handleMerge (Render.mergerProps a) server) (mkEnv a m w)
        = exec (VideoMerger.handleMerge_settled (Render.mergerProps a) (fst d))
               (snd d)).
Proof.
  split; [| split].
  - intros u w f Hf. unfold VideoUploader.handleConvert. simpl. now rewrite Hf.
  - intros u w f t Hf Ht. unfold VideoUploader.handleTrimOnly. simpl.
    now rewrite Hf, Ht.
  - intros m w Hlen. unfold VideoMerger.handleMerge, VideoMerger.getState.
    unfold exec at 1. unfold bind at 1. cbn [local].
    destruct (Nat.ltb_spec (List.length (VideoMerger.videos m)) 2) as [Hlt | _];
      [lia | reflexivity].
Qed.

(** The effect of one event on the session and on the pending calls. *)
Lemma step_effect (c c' : Client) :
  step c c' ->
  (edits (session c) (session c')
   /\ inflightSingle c' = inflightSingle c /\ inflightMerge c' = inflightMerge c)
  \/ (App.isConverting (session c) = false
      /\ App.selectedFile (session c) <> None
      /\ session c' = App.handleConversionStart (session c)
      /\ inflightSingle c' = S (inflightSingle c)
      /\ inflightMerge c' = inflightMerge c)
  \/ (settlesSingle (session c) (session c')
      /\ inflightSingle c = S (inflightSingle c')
      /\ inflightMerge c' = inflightMerge c)
  \/ (App.isMerging (session c) = false
      /\ session c' = App.handleMergeStart (session c)
      /\ inflightSingle c' = inflightSingle c
      /\ inflightMerge c' = S (inflightMerge c))
  \/ (settlesMerge (session c) (session c')
      /\ inflightSingle c' = inflightSingle c
      /\ inflightMerge c = S (inflightMerge c')).
Proof.
  intros H. destruct H as
    [ c m | c u w f Hm | c v a' Hm Hs | c v a' Hm Hs
    | c props s w video Hp | c props s w v Hp | c props s w v Hp
    | c u w server f Hm Hf Hb | c u w server f t Hm Hf Ht Hb
    | c n a0 u w o Hn | c n a0 u w o Hn
    | c m w server Hm Hlen Hb | c n a0 m w o Hn ];
    cbn [session inflightSingle inflightMerge withSession].
  - left. repeat split. constructor.
  - left. repeat split. unfold VideoUploader.handleFileSelect.
    destruct (negb (includes allowedTypes (type f))); [constructor |].
    destruct (size f >? sizeLimit); constructor.
  - left. repeat split. unfold sidebarSetStart, Render.trimControlsProps in Hs.
    destruct (App.selectedFile (session c)) as [f |] eqn:Hf; [| discriminate].
    destruct (App.trimData (session c)) as [t |]; [| discriminate].
    injection Hs as <-. unfold TrimControls.handleStartTimeChange.
    cbn [TrimControls.trimData TrimControls.onTrimChange].
    destruct (Qle_bool (endTime t) v); apply edits_trim; cbn [parent]; congruence.
  - left. repeat split. unfold sidebarSetEnd, Render.trimControlsProps in Hs.
    destruct (App.selectedFile (session c)) as [f |] eqn:Hf; [| discriminate].
    destruct (App.trimData (session c)) as [t |]; [| discriminate].
    injection Hs as <-. unfold TrimControls.handleEndTimeChange.
    cbn [TrimControls.trimData TrimControls.onTrimChange].
    destruct (Qle_bool v (startTime t)); apply edits_trim; cbn [parent]; congruence.
  - left. repeat split. unfold Render.previewProps in Hp.
    destruct (App.convertedVideo (session c)); [discriminate |].
    destruct (App.selectedFile (session c)) as [f |] eqn:Hf; [| discriminate].
    destruct (App.currentMode (session c)); [| discriminate].
    injection Hp as <-. destruct video as [vd |]; [| constructor].
    apply edits_trim. cbn [parent]. congruence.
  - left. repeat split. unfold Render.previewProps in Hp.
    destruct (App.convertedVideo (session c)); [discriminate |].
    destruct (App.selectedFile (session c)) as [f |] eqn:Hf; [| discriminate].
    destruct (App.currentMode (session c)); [| discriminate].
    injection Hp as <-. rewrite previewSetStart_result. cbn [parent].
    apply edits_trim. congruence.
  - left. repeat split. unfold Render.previewProps in Hp.
    destruct (App.convertedVideo (session c)); [discriminate |].
    destruct (App.selectedFile (session c)) as [f |] eqn:Hf; [| discriminate].
    destruct (App.currentMode (session c)); [| discriminate].
    injection Hp as <-. rewrite previewSetEnd_result. cbn [parent].
    apply edits_trim. congruence.
  - right. left. repeat split; [exact Hb | congruence].
  - right. left. repeat split; [exact Hb | congruence].
  - right. right. left. rewrite Hn. repeat split.
    destruct o as [d | pl]; [destruct (success d) eqn:Hd |].
    + unfold VideoUploader.handleConvert_settled. rewrite Hd. constructor.
    + unfold VideoUploader.handleConvert_settled. rewrite Hd. constructor.
    + constructor.
  - right. right. left. rewrite Hn. repeat split.
    destruct o as [d | pl]; [destruct (success d) eqn:Hd |].
    + unfold VideoUploader.handleTrimOnly_settled. rewrite Hd. constructor.
    + unfold VideoUploader.handleTrimOnly_settled. rewrite Hd. constructor.
    + constructor.
  - right. right. right. left. repeat split. exact Hb.
  - right. right. right. right. rewrite Hn. repeat split.
    destruct o as [d | pl]; [destruct (success d) eqn:Hd |].
    + unfold VideoMerger.handleMerge_settled. rewrite Hd. constructor.
    + unfold VideoMerger.handleMerge_settled. rewrite Hd. constructor.
    + constructor.
Qed.

Lemma steps_trans (c1 c2 c3 : Client) :
  steps c1 c2 -> steps c2 c3 -> steps c1 c3.
Proof.
  intros H12 H23. induction H23 as [| c2 c3 c4 _ IH Hs]; [exact H12 |].
  exact (steps_step _ _ _ (IH H12) Hs).
Qed.

(** A path of events from page load: select [clipA], load its metadata,
    press convert, and the call is rejected. *)
Lemma steps_to_clientA : steps startClient clientA.
Proof.
  refine (steps_step _ (mkClient (App.handleFileSelected clipA App.init) 0 0) _ _ _).
  - refine (steps_step _ startClient _ (steps_refl _) _).
    exact (step_select startClient VideoUploader.init [] clipA eq_refl).
  - exact (step_preview_load (mkClient (App.handleFileSelected clipA App.init) 0 0)
             (previewOf clipA) VideoPreview.init []
             (Some (VideoPreview.mkVideo 10 0)) eq_refl).
Qed.

Lemma steps_to_clientBusy : steps startClient clientBusy.
Proof.
  refine (steps_step _ clientA _ steps_to_clientA _).
  exact (step_convert_dispatch clientA VideoUploader.init []
           (fun _ => Rejected None) clipA eq_refl eq_refl eq_refl).
Qed.

Lemma steps_to_clientFailed : steps startClient clientFailed.
Proof.
  refine (steps_step _ clientBusy _ steps_to_clientBusy _).
  exact (step_convert_settle clientBusy 0 sessionA VideoUploader.init []
           (Rejected None) eq_refl).
Qed.

(** In every state the client can reach from page load, each mode has at
    most one call pending, and while one is pending the mode's busy flag is
    set (so its dispatch buttons are disabled). *)
Theorem at_most_one_call_in_flight (c : Client) :
  steps startClient c ->
  (inflightSingle c <= 1)%nat
  /\ (inflightSingle c = 1%nat -> App.isConverting (session c) = true)
  /\ (inflightMerge c <= 1)%nat
  /\ (inflightMerge c = 1%nat -> App.isMerging (session c) = true).
Proof.
  intros H. remember startClient as c0 eqn:E0.
  induction H as [| c1 c2 c3 _ IH Hs].
  - subst c. cbn [startClient inflightSingle inflightMerge session].
    repeat split; first [lia | intros E; discriminate E].
  - destruct (IH E0) as (I1 & I2 & I3 & I4).
    destruct (step_effect _ _ Hs)
      as [(He & E1 & E2) | [(Hb & _ & Ha & E1 & E2) | [(He & E1 & E2)
         | [(Hb & Ha & E1 & E2) | (He & E1 & E2)]]]].
    + rewrite E1, E2.
      assert (Hk : App.isConverting (session c3) = App.isConverting (session c2)
                   /\ App.isMerging (session c3) = App.isMerging (session c2))
        by (destruct He; split; reflexivity).
      destruct Hk as [-> ->]. now repeat split.
    + assert (H0 : inflightSingle c2 = 0%nat).
      { destruct (inflightSingle c2) as [| [| k]]; [reflexivity | | lia].
        rewrite I2 in Hb by reflexivity. discriminate. }
      rewrite E1, E2, Ha, H0. cbn. repeat split; try lia; assumption.
    + rewrite E2.
      assert (Hk : App.isMerging (session c3) = App.isMerging (session c2))
        by (destruct He; reflexivity).
      rewrite Hk. repeat split; try lia; try assumption.
    + assert (H0 : inflightMerge c2 = 0%nat).
      { destruct (inflightMerge c2) as [| [| k]]; [reflexivity | | lia].
        rewrite I4 in Hb by reflexivity. discriminate. }
      rewrite E1, E2, Ha, H0. cbn. repeat split; try lia; assumption.
    + rewrite E1.
      assert (Hk : App.isConverting (session c3) = App.isConverting (session c2))
        by (destruct He; reflexivity).
      rewrite Hk. repeat split; try lia; try assumption.
Qed.

Lemma at_most_one_call_in_flight_witness :
  (inflightSingle clientBusy <= 1)%nat
  /\ App.isConverting (session clientBusy) = true.
Proof.
  destruct (at_most_one_call_in_flight clientBusy steps_to_clientBusy)
    as (H1 & H2 & _).
  exact (conj H1 (H2 eq_refl)).
Defined.

(** Once [isConverting] is set and no single-mode call is pending (the
    state a rejected or unsuccessful convert or trim-only call leaves
    behind), no later event clears the flag or starts a single-mode call:
    the convert and trim-only buttons stay disabled for the rest of the
    session, through file selections and mode switches alike. *)
Theorem busy_without_call_is_permanent (c c' : Client) :
  App.isConverting (session c) = true ->
  inflightSingle c = 0%nat ->
  steps c c' ->
  App.isConverting (session c') = true /\ inflightSingle c' = 0%nat.
Proof.
  intros Hb H0 H. induction H as [| c1 c2 c3 _ IH Hs]; [now split |].
  destruct (IH Hb H0) as [Hb2 H02].
  destruct (step_effect _ _ Hs)
    as [(He & E1 & E2) | [(Hf & _) | [(He & E1 & E2)
       | [(_ & Ha & E1 & E2) | (He & E1 & E2)]]]].
  - rewrite E1. split; [| exact H02]. destruct He; exact Hb2.
  - congruence.
  - lia.
  - rewrite E1, Ha. now split.
  - rewrite E1. split; [| exact H02]. destruct He; exact Hb2.
Qed.

Lemma busy_without_call_is_permanent_witness :
  App.isConverting
    (session (withSession
                (App.handleFileSelected clipC (session clientFailed)) clientFailed))
  = true.
Proof.
  refine (proj1 (busy_without_call_is_permanent clientFailed
                   (withSession (App.handleFileSelected clipC (session clientFailed))
                      clientFailed)
                   eq_refl eq_refl _)).
  refine (steps_step _ clientFailed _ (steps_refl _) _).
  exact (step_select clientFailed VideoUploader.init [] clipC eq_refl).
Defined.

Lemma clip_and_range_across_steps (c c' : Client) :
  steps c c' ->
  (App.selectedFile (session c) <> None -> App.selectedFile (session c') <> None)
  /\ (App.trimData (session c) = None ->
      App.trimData (session c') <> None -> App.selectedFile (session c') <> None).
Proof.
  intros H. induction H as [| c1 c2 c3 _ IH Hs].
  - split; [easy |]. intros -> Ht. now contradiction Ht.
  - destruct IH as [IH1 IH2].
    assert (Hk :
      (App.selectedFile (session c2) <> None -> App.selectedFile (session c3) <> None)
      /\ (App.trimData (session c3) <> None ->
          App.trimData (session c2) <> None \/ App.selectedFile (session c3) <> None)).
    { destruct (step_effect _ _ Hs)
        as [(He & _) | [(_ & _ & Ha & _) | [(He & _) | [(_ & Ha & _) | (He & _)]]]].
      - destruct He as [| m | f | s e d Hsel]; cbn.
        + split; [easy | now left].
        + split; [easy | now left].
        + split; [discriminate | right; discriminate].
        + split; [easy | now right].
      - rewrite Ha. cbn. split; [easy | now left].
      - destruct He; cbn; (split; [easy | now left]).
      - rewrite Ha. cbn. split; [easy | now left].
      - destruct He; cbn; (split; [easy | now left]). }
    destruct Hk as [K1 K2]. split; [auto |].
    intros Hc Ht. destruct (K2 Ht) as [Ht2 | Hsel]; [| exact Hsel].
    apply K1. now apply IH2.
Qed.

(** In every state the client can reach from page load, a trim range is
    present only if a clip is selected. *)
Theorem trim_range_needs_clip (c : Client) :
  steps startClient c ->
  App.trimData (session c) <> None ->
  App.selectedFile (session c) <> None.
Proof.
  intros H. exact (proj2 (clip_and_range_across_steps startClient c H) eq_refl).
Qed.

Lemma trim_range_needs_clip_witness :
  App.selectedFile (session clientFailed) <> None.
Proof.
  refine (trim_range_needs_clip clientFailed steps_to_clientFailed _).
  discriminate.
Defined.

(** No event deselects the clip: once a clip is selected, one is selected
    in every later state (it can only be replaced by another). *)
Theorem selected_clip_is_kept (c c' : Client) :
  steps c c' ->
  App.selectedFile (session c) <> None ->
  App.selectedFile (session c') <> None.
Proof.
  intros H. exact (proj1 (clip_and_range_across_steps c c' H)).
Qed.

Lemma selected_clip_is_kept_witness :
  App.selectedFile (session clientFailed) <> None.
Proof.
  refine (selected_clip_is_kept clientA clientFailed _ _); [| discriminate].
  refine (steps_step _ clientBusy _ _ _).
  - refine (steps_step _ clientA _ (steps_refl _) _).
    exact (step_convert_dispatch clientA VideoUploader.init []
             (fun _ => Rejected None) clipA eq_refl eq_refl eq_refl).
  - exact (step_convert_settle clientBusy 0 sessionA VideoUploader.init []
             (Rejected None) eq_refl).
Defined.


